(** * The MQTT connection composable [useMqtt] of the GPS project

    A shallow embedding of [useMqtt] (the second part of [src/src/App.vue]):
    the reactive refs it owns, the operations [connect], [disconnect],
    [subscribe], [unsubscribe] and [publish], and the handlers it attaches to
    the MQTT client and to the 15-second timer.

    The MQTT client library, the timers and the console are collaborators:
    calls to them are recorded, in program order, in a [World]; what they do
    in return (events, acknowledgments, a timer firing) reaches the composable
    as an [Event]. *)

From Stdlib Require Import ZArith Ascii String List Bool Lia DecimalString.
From stdpp Require Import base option list strings gmap.
Import ListNotations.
Local Open Scope string_scope.
Local Open Scope Z_scope.
Local Set Warnings "-register-all".

(** ** JavaScript values

    Plain data: the values [JSON.parse] returns and the option values of
    the session.  [VNum n] is the Number value for the integer [n]: [n]
    itself when a double holds it, otherwise the double nearest to [n],
    ties to the even significand, and an infinity from [2^1024 - 2^970]
    on; integers with the same nearest double stand for the same Number.
    An object is the list of its own enumerable properties in enumeration
    order, keys distinct.  Strings are sequences of bytes holding ASCII or
    UTF-8 text. *)

Inductive value : Type :=
| VUndefined
| VNull
| VBool (b : bool)
| VNum (n : Z)
| VStr (s : string)
| VArr (elements : list value)
| VObj (properties : list (string * value)).

(** [typeof v] *)
Definition typeof (v : value) : string :=
  match v with
  | VUndefined => "undefined"
  | VNull => "object"
  | VBool _ => "boolean"
  | VNum _ => "number"
  | VStr _ => "string"
  | VArr _ => "object"
  | VObj _ => "object"
  end.

(** The decimal numeral of a natural number. *)
Definition decimal (n : Z) : string :=
  NilEmpty.string_of_int (Z.to_int n).

(** The Number value for a positive integer: the integer itself up to 53
    bits, else its leading 53 bits rounded to nearest, ties to even;
    [None] is the overflow to [Infinity]. *)
Definition Number_of (n : Z) : option Z :=
  let b := Z.log2 n + 1 in
  if b <=? 53 then Some n
  else
    let shift := b - 53 in
    let q := Z.shiftr n shift in
    let r := n - Z.shiftl q shift in
    let half := Z.shiftl 1 (shift - 1) in
    let q' := if (half <? r) || ((r =? half) && Z.odd q) then q + 1 else q in
    let x := Z.shiftl q' shift in
    if 2 ^ 1024 <=? x then None else Some x.

(** [Number.isFinite] on the Number value for [n]. *)
Definition Number_isFinite (n : Z) : bool :=
  (n =? 0) || bool_decide (is_Some (Number_of (Z.abs n))).

Definition digits (x : Z) : Z := Z.of_nat (String.length (decimal x)).

(** The pairs [(n, s)] with [s] of [k] digits and [s * 10^(n - k)] a
    numeral that reads back as the Number [x]. *)
Definition candidates (x k : Z) : list (Z * Z) :=
  let d := digits x in
  filter (fun ns => let '(n, s) := ns in
            bool_decide (10 ^ (k - 1) <= s < 10 ^ k /\
                         Number_of (s * 10 ^ (n - k)) = Some x))
    (flat_map (fun n => let s := x / 10 ^ (n - k) in [(n, s); (n, s + 1)])
              [d; d + 1]).

(** Of two candidates the one nearer to [x], the even one on a tie. *)
Definition closer (x k : Z) (a b : Z * Z) : Z * Z :=
  let da := Z.abs (snd a * 10 ^ (fst a - k) - x) in
  let db := Z.abs (snd b * 10 ^ (fst b - k) - x) in
  if da <? db then a else if db <? da then b
  else if Z.even (snd a) then a else b.

(** The [n], [k] and [s] of [Number::toString]: [k] as small as possible,
    searched upwards from the [k] given. *)
Fixpoint shortest (x : Z) (k : Z) (fuel : nat) : option (Z * Z * Z) :=
  match fuel with
  | O => None
  | S fuel =>
      match candidates x k with
      | [] => shortest x (k + 1) fuel
      | c :: cs => let '(n, s) := foldl (closer x k) c cs in Some (n, k, s)
      end
  end.

(** [Number::toString] of a positive integer-valued Number: up to 21
    digits the digits of [s] and then zeros, from there on the exponent
    form. *)
Definition Number_toString_pos (x : Z) : string :=
  match shortest x 1 (Z.to_nat (digits x)) with
  | Some (n, k, s) =>
      if n <=? 21
      then decimal s ++ String.concat "" (replicate (Z.to_nat (n - k)) "0")
      else
        match decimal s with
        | String d rest =>
            String d (if k =? 1 then "" else "." ++ rest)
              ++ "e+" ++ decimal (n - 1)
        | EmptyString => ""
        end
  | None => ""
  end.

(** [Number.prototype.toString] on the Number value for [n]. *)
Definition Number_toString (n : Z) : string :=
  if n =? 0 then "0"
  else match Number_of (Z.abs n) with
       | Some x => (if n <? 0 then "-" else "") ++ Number_toString_pos x
       | None => if n <? 0 then "-Infinity" else "Infinity"
       end.

(** [Array.prototype.join]: the pieces with the separator between them. *)
Fixpoint join (sep : string) (pieces : list string) : string :=
  match pieces with
  | [] => ""
  | [p] => p
  | p :: rest => p ++ sep ++ join sep rest
  end.

(** [String(v)].  An array prints its elements joined by commas, [null] and
    [undefined] elements as the empty string. *)
Fixpoint String_ (v : value) : string :=
  match v with
  | VUndefined => "undefined"
  | VNull => "null"
  | VBool b => if b then "true" else "false"
  | VNum n => Number_toString n
  | VStr s => s
  | VArr xs =>
      join "," (map (fun x => match x with
                              | VUndefined | VNull => ""
                              | _ => String_ x
                              end) xs)
  | VObj _ => "[object Object]"
  end.

(** *** [JSON.stringify] *)

Definition hex_digit (n : N) : ascii :=
  match n with
  | 0 => "0" | 1 => "1" | 2 => "2" | 3 => "3" | 4 => "4" | 5 => "5"
  | 6 => "6" | 7 => "7" | 8 => "8" | 9 => "9" | 10 => "a" | 11 => "b"
  | 12 => "c" | 13 => "d" | 14 => "e" | _ => "f"
  end%N%char.

(** The double quote, as a one-character string. *)
Definition dquote : string := String "034"%char "".

(** The escape of one character inside a JSON string literal. *)
Definition quote_char (c : ascii) : string :=
  let n := N_of_ascii c in
  if (n =? 34)%N then "\" ++ dquote
  else if (n =? 92)%N then "\\"
  else if (n =? 8)%N then "\b"
  else if (n =? 12)%N then "\f"
  else if (n =? 10)%N then "\n"
  else if (n =? 13)%N then "\r"
  else if (n =? 9)%N then "\t"
  else if (n <? 32)%N then
    "\u00" ++ String (hex_digit (n / 16)) (String (hex_digit (n mod 16)) "")
  else String c "".

Fixpoint quote_chars (s : string) : string :=
  match s with
  | EmptyString => ""
  | String c rest => quote_char c ++ quote_chars rest
  end.

(** [QuoteJSONString] *)
Definition QuoteJSONString (s : string) : string :=
  dquote ++ quote_chars s ++ dquote.

(** [SerializeJSONProperty]: [None] stands for [undefined], which an array
    prints as [null] and an object leaves out with its key. *)
Fixpoint SerializeJSONProperty (v : value) : option string :=
  match v with
  | VUndefined => None
  | VNull => Some "null"
  | VBool b => Some (if b then "true" else "false")
  | VNum n => Some (if Number_isFinite n then Number_toString n else "null")
  | VStr s => Some (QuoteJSONString s)
  | VArr xs =>
      Some ("[" ++ join "," (map (fun x => match SerializeJSONProperty x with
                                           | Some j => j
                                           | None => "null"
                                           end) xs) ++ "]")
  | VObj ps =>
      Some ("{" ++ join "," (omap (fun kx => match SerializeJSONProperty (snd kx) with
                                             | Some j => Some (QuoteJSONString (fst kx) ++ ":" ++ j)
                                             | None => None
                                             end) ps) ++ "}")
  end.

(** [JSON.stringify(v)], a JavaScript value again: a string or [undefined]. *)
Definition JSON_stringify (v : value) : value :=
  match SerializeJSONProperty v with
  | Some j => VStr j
  | None => VUndefined
  end.


(** *** [JSON.parse]

    [JSON.parse] is a builtin; the composable is verified for any parser (a
    variable of the section below).  [parse] is the instance the examples run
    on: JSON text whose numbers are integer numerals, of any length, and
    whose [\u] escapes name ASCII characters.  A text outside that fragment
    is not represented by [value] and [parse] gives [None] for it. *)

Definition is_ws (c : ascii) : bool :=
  let n := N_of_ascii c in
  ((n =? 32) || (n =? 9) || (n =? 10) || (n =? 13))%N.

Fixpoint skip_ws (s : string) : string :=
  match s with
  | String c rest => if is_ws c then skip_ws rest else s
  | EmptyString => s
  end.

Definition digit_of (c : ascii) : option Z :=
  let n := N_of_ascii c in
  if ((48 <=? n) && (n <=? 57))%N then Some (Z.of_N n - 48) else None.

Definition hex_of (c : ascii) : option N :=
  let n := N_of_ascii c in
  if ((48 <=? n) && (n <=? 57))%N then Some (n - 48)%N
  else if ((97 <=? n) && (n <=? 102))%N then Some (n - 87)%N
  else if ((65 <=? n) && (n <=? 70))%N then Some (n - 55)%N
  else None.

(** The digits at the head of [s], read after the numeral [acc]. *)
Fixpoint parse_digits (acc : Z) (s : string) : Z * string :=
  match s with
  | String c rest =>
      match digit_of c with
      | Some d => parse_digits (10 * acc + d) rest
      | None => (acc, s)
      end
  | EmptyString => (acc, s)
  end.

(** An integer numeral without sign: [0], or digits not starting with [0].
    A fraction or an exponent after it is outside the fragment. *)
Definition parse_int (s : string) : option (Z * string) :=
  match s with
  | String c rest =>
      match digit_of c with
      | Some d =>
          let (n, rest') := if d =? 0 then (0, rest) else parse_digits d rest in
          match rest' with
          | String "."%char _ | String "e"%char _ | String "E"%char _ => None
          | _ => Some (n, rest')
          end
      | None => None
      end
  | EmptyString => None
  end.

Definition parse_number (s : string) : option (value * string) :=
  match s with
  | String "-"%char rest =>
      match parse_int rest with
      | Some (n, rest') => Some (VNum (- n), rest')
      | None => None
      end
  | _ =>
      match parse_int s with
      | Some (n, rest') => Some (VNum n, rest')
      | None => None
      end
  end.

(** The rest of a string literal, after its opening quote. *)
Fixpoint parse_chars (s : string) : option (string * string) :=
  let cons c r :=
    match r with
    | Some (str, rest) => Some (String c str, rest)
    | None => None
    end in
  match s with
  | EmptyString => None
  | String "034"%char rest => Some ("", rest)
  | String "\"%char (String e rest) =>
      match e with
      | "034"%char => cons "034"%char (parse_chars rest)
      | "\"%char => cons "\"%char (parse_chars rest)
      | "/"%char => cons "/"%char (parse_chars rest)
      | "b"%char => cons "008"%char (parse_chars rest)
      | "f"%char => cons "012"%char (parse_chars rest)
      | "n"%char => cons "010"%char (parse_chars rest)
      | "r"%char => cons "013"%char (parse_chars rest)
      | "t"%char => cons "009"%char (parse_chars rest)
      | "u"%char =>
          match rest with
          | String h1 (String h2 (String h3 (String h4 rest'))) =>
              match hex_of h1, hex_of h2, hex_of h3, hex_of h4 with
              | Some 0%N, Some 0%N, Some a, Some b =>
                  if (a <? 8)%N
                  then cons (ascii_of_N (16 * a + b)) (parse_chars rest')
                  else None
              | _, _, _, _ => None
              end
          | _ => None
          end
      | _ => None
      end
  | String "\"%char EmptyString => None
  | String c rest =>
      if (N_of_ascii c <? 32)%N then None else cons c (parse_chars rest)
  end.

(** An array index as a property key: such keys are enumerated first, in
    ascending order. *)
Definition array_index (k : string) : option Z :=
  match parse_int k with
  | Some (n, EmptyString) => if n <? 4294967295 then Some n else None
  | _ => None
  end.

(** Defining property [k] with value [v]: an existing property keeps its
    place and takes the value; a new index key goes among the index keys, a
    new string key last. *)
Fixpoint insert_property (k : string) (v : value) (ps : list (string * value))
    : list (string * value) :=
  match ps with
  | [] => [(k, v)]
  | (k', v') :: rest =>
      match array_index k, array_index k' with
      | Some n, Some n' =>
          if n <? n' then (k, v) :: ps else (k', v') :: insert_property k v rest
      | Some _, None => (k, v) :: ps
      | None, _ => (k', v') :: insert_property k v rest
      end
  end.

Definition define_property (k : string) (v : value) (ps : list (string * value))
    : list (string * value) :=
  if existsb (fun p => String.eqb (fst p) k) ps
  then map (fun p => if String.eqb (fst p) k then (k, v) else p) ps
  else insert_property k v ps.

Definition expect (word : string) (v : value) (s : string)
    : option (value * string) :=
  if String.prefix word s
  then Some (v, String.substring (String.length word)
                  (String.length s - String.length word) s)
  else None.

Fixpoint parse_value (fuel : nat) (s : string) : option (value * string) :=
  match fuel with
  | O => None
  | S fuel =>
      match skip_ws s with
      | String "n"%char _ as s' => expect "null" VNull s'
      | String "t"%char _ as s' => expect "true" (VBool true) s'
      | String "f"%char _ as s' => expect "false" (VBool false) s'
      | String "034"%char rest =>
          match parse_chars rest with
          | Some (str, rest') => Some (VStr str, rest')
          | None => None
          end
      | String "["%char rest =>
          match skip_ws rest with
          | String "]"%char rest' => Some (VArr [], rest')
          | _ => parse_elements fuel rest []
          end
      | String "{"%char rest =>
          match skip_ws rest with
          | String "}"%char rest' => Some (VObj [], rest')
          | _ => parse_members fuel rest []
          end
      | s' => parse_number s'
      end
  end
with parse_elements (fuel : nat) (s : string) (acc : list value)
    : option (value * string) :=
  match fuel with
  | O => None
  | S fuel =>
      match parse_value fuel s with
      | Some (v, rest) =>
          match skip_ws rest with
          | String ","%char rest' => parse_elements fuel rest' (acc ++ [v])
          | String "]"%char rest' => Some (VArr (acc ++ [v]), rest')
          | _ => None
          end
      | None => None
      end
  end
with parse_members (fuel : nat) (s : string) (acc : list (string * value))
    : option (value * string) :=
  match fuel with
  | O => None
  | S fuel =>
      match skip_ws s with
      | String "034"%char rest =>
          match parse_chars rest with
          | Some (k, rest') =>
              match skip_ws rest' with
              | String ":"%char rest'' =>
                  match parse_value fuel rest'' with
                  | Some (v, rest3) =>
                      match skip_ws rest3 with
                      | String ","%char rest4 =>
                          parse_members fuel rest4 (define_property k v acc)
                      | String "}"%char rest4 =>
                          Some (VObj (define_property k v acc), rest4)
                      | _ => None
                      end
                  | None => None
                  end
              | _ => None
              end
          | None => None
          end
      | _ => None
      end
  end.

Definition parse (text : string) : option value :=
  match parse_value (2 * String.length text + 2) text with
  | Some (v, rest) =>
      match skip_ws rest with
      | EmptyString => Some v
      | _ => None
      end
  | None => None
  end.

(** ** The session state

    One field for each [ref] of [useMqtt]. *)

(** An [Error] object, by its message. *)
Inductive Err : Type := Error (message : string).

(** A client returned by [mqtt.connect]; clients are numbered as created. *)
Definition Client : Type := nat.

(** An options object, used as a map from option names to values. *)
Abbreviation Object := (gmap string value).

(** An entry of the message log. *)
Record Message : Type := {
  topic : string;
  data : value;
  raw : string;
  timestamp : string
}.

Record State : Type := {
  client : option Client;
  isConnected : bool;
  isConnecting : bool;
  error : option Err;
  messages : list Message;
  subscriptions : list string;
  currentBrokerUrl : string;
  currentClientOptions : Object;
  connectionTimeout : option positive
}.

Definition set_client (v : option Client) (s : State) : State :=
  {| client := v; isConnected := isConnected s; isConnecting := isConnecting s;
     error := error s; messages := messages s; subscriptions := subscriptions s;
     currentBrokerUrl := currentBrokerUrl s;
     currentClientOptions := currentClientOptions s;
     connectionTimeout := connectionTimeout s |}.

Definition set_isConnected (v : bool) (s : State) : State :=
  {| client := client s; isConnected := v; isConnecting := isConnecting s;
     error := error s; messages := messages s; subscriptions := subscriptions s;
     currentBrokerUrl := currentBrokerUrl s;
     currentClientOptions := currentClientOptions s;
     connectionTimeout := connectionTimeout s |}.

Definition set_isConnecting (v : bool) (s : State) : State :=
  {| client := client s; isConnected := isConnected s; isConnecting := v;
     error := error s; messages := messages s; subscriptions := subscriptions s;
     currentBrokerUrl := currentBrokerUrl s;
     currentClientOptions := currentClientOptions s;
     connectionTimeout := connectionTimeout s |}.

Definition set_error (v : option Err) (s : State) : State :=
  {| client := client s; isConnected := isConnected s; isConnecting := isConnecting s;
     error := v; messages := messages s; subscriptions := subscriptions s;
     currentBrokerUrl := currentBrokerUrl s;
     currentClientOptions := currentClientOptions s;
     connectionTimeout := connectionTimeout s |}.

Definition set_messages (v : list Message) (s : State) : State :=
  {| client := client s; isConnected := isConnected s; isConnecting := isConnecting s;
     error := error s; messages := v; subscriptions := subscriptions s;
     currentBrokerUrl := currentBrokerUrl s;
     currentClientOptions := currentClientOptions s;
     connectionTimeout := connectionTimeout s |}.

Definition set_subscriptions (v : list string) (s : State) : State :=
  {| client := client s; isConnected := isConnected s; isConnecting := isConnecting s;
     error := error s; messages := messages s; subscriptions := v;
     currentBrokerUrl := currentBrokerUrl s;
     currentClientOptions := currentClientOptions s;
     connectionTimeout := connectionTimeout s |}.

Definition set_currentBrokerUrl (v : string) (s : State) : State :=
  {| client := client s; isConnected := isConnected s; isConnecting := isConnecting s;
     error := error s; messages := messages s; subscriptions := subscriptions s;
     currentBrokerUrl := v;
     currentClientOptions := currentClientOptions s;
     connectionTimeout := connectionTimeout s |}.

Definition set_currentClientOptions (v : Object) (s : State) : State :=
  {| client := client s; isConnected := isConnected s; isConnecting := isConnecting s;
     error := error s; messages := messages s; subscriptions := subscriptions s;
     currentBrokerUrl := currentBrokerUrl s;
     currentClientOptions := v;
     connectionTimeout := connectionTimeout s |}.

Definition set_connectionTimeout (v : option positive) (s : State) : State :=
  {| client := client s; isConnected := isConnected s; isConnecting := isConnecting s;
     error := error s; messages := messages s; subscriptions := subscriptions s;
     currentBrokerUrl := currentBrokerUrl s;
     currentClientOptions := currentClientOptions s;
     connectionTimeout := v |}.

(** *** The subscription set

    A JavaScript [Set] of topic strings: no element twice, iterated in
    insertion order. *)

Definition Set_has (t : string) (s : list string) : bool :=
  bool_decide (t ∈ s).

Definition Set_add (t : string) (s : list string) : list string :=
  if Set_has t s then s else s ++ [t].

Definition Set_delete (t : string) (s : list string) : list string :=
  filter (fun x => x ≠ t) s.

(** ** The collaborators *)

Inductive ConsoleArg : Type :=
| text (s : string)
| err (e : Err)
| val (v : value).

(** A call made by the composable on the MQTT library, a client, the timers
    or the console.  [client_end c] is [c.end()], the one form in which
    the composable closes a client: no argument, so the force flag of the
    library is not set. *)
Inductive Call : Type :=
| mqtt_connect (url : string) (options : Object)
| client_on (c : Client) (event : string)
| client_end (c : Client)
| client_subscribe (c : Client) (t : string) (options : Object)
| client_unsubscribe (c : Client) (t : string) (with_callback : bool)
| client_publish (c : Client) (t : string) (payload : value) (options : Object)
| setTimeout (id : positive) (ms : Z)
| clearTimeout (id : positive)
| console_warn (args : list ConsoleArg)
| console_error (args : list ConsoleArg)
| console_log (args : list ConsoleArg).

(** A completion callback handed to a client, with the variables it closes
    over. *)
Inductive Callback : Type :=
| subscribe_cb (t : string)
| unsubscribe_cb (t : string)
| publish_cb (t : string) (payload : value).

Record World : Type := {
  clients : nat;               (* clients created so far: 0 .. clients - 1 *)
  timers : positive;           (* the id the next setTimeout returns *)
  armed : list positive;       (* timers set, not yet fired nor cleared *)
  callbacks : list Callback;   (* callbacks handed over, not yet invoked *)
  calls : list Call            (* every call so far, oldest first *)
}.

Definition Config : Type := State * World.

(** *** Sequencing

    An operation or handler runs to completion on the configuration. *)

Definition M (A : Type) : Type := Config -> A * Config.

Definition ret {A} (x : A) : M A := fun c => (x, c).

Definition bind {A B} (m : M A) (k : A -> M B) : M B :=
  fun c => let (x, c') := m c in k x c'.

Declare Scope js_scope.
Delimit Scope js_scope with js.
Notation "x <- m ;; k" := (bind m (fun x => k))
  (at level 100, m at next level, k at level 200, right associativity) : js_scope.
Notation "m ;; k" := (bind m (fun _ => k))
  (at level 100, k at level 200, right associativity) : js_scope.
Local Open Scope js_scope.

(** [ref.value] *)
Definition get {A} (ref : State -> A) : M A := fun c => (ref (fst c), c).

(** [ref.value = v] *)
Definition assign {A} (set : A -> State -> State) (v : A) : M unit :=
  fun c => (tt, (set v (fst c), snd c)).

Definition when (b : bool) (m : M unit) : M unit := if b then m else ret tt.

(** [l.forEach(f)] *)
Fixpoint forEach {A} (l : list A) (f : A -> M unit) : M unit :=
  match l with
  | [] => ret tt
  | x :: rest => f x ;; forEach rest f
  end.

Definition call (k : Call) : M unit :=
  fun c => let w := snd c in
    (tt, (fst c, {| clients := clients w; timers := timers w; armed := armed w;
                    callbacks := callbacks w; calls := calls w ++ [k] |})).

(** Handing a callback to a client. *)
Definition hand_over (cb : Callback) : M unit :=
  fun c => let w := snd c in
    (tt, (fst c, {| clients := clients w; timers := timers w; armed := armed w;
                    callbacks := callbacks w ++ [cb]; calls := calls w |})).

(** [setTimeout(handler, ms)]: a fresh timer id, now armed. *)
Definition do_setTimeout (ms : Z) : M positive :=
  fun c => let w := snd c in
    let id := timers w in
    (id, (fst c, {| clients := clients w; timers := Pos.succ id;
                    armed := armed w ++ [id];
                    callbacks := callbacks w;
                    calls := calls w ++ [setTimeout id ms] |})).

(** [clearTimeout(id)] *)
Definition do_clearTimeout (id : positive) : M unit :=
  fun c => let w := snd c in
    (tt, (fst c, {| clients := clients w; timers := timers w;
                    armed := filter (fun x => x ≠ id) (armed w);
                    callbacks := callbacks w;
                    calls := calls w ++ [clearTimeout id] |})).

(** [mqtt.connect(url, options)]: it throws, or returns a new client. *)
Definition do_mqtt_connect (url : string) (options : Object)
    (thrown : option Err) : M (Err + Client) :=
  fun c => let w := snd c in
    match thrown with
    | Some e =>
        (inl e, (fst c, {| clients := clients w; timers := timers w;
                           armed := armed w; callbacks := callbacks w;
                           calls := calls w ++ [mqtt_connect url options] |}))
    | None =>
        (inr (clients w),
         (fst c, {| clients := S (clients w); timers := timers w;
                    armed := armed w; callbacks := callbacks w;
                    calls := calls w ++ [mqtt_connect url options] |}))
    end.

(** ** The composable *)

(** The argument of [subscribe] and [unsubscribe]: a topic or an array of
    topics. *)
Inductive Topics : Type :=
| one (t : string)
| many (ts : list string).

(** [Array.isArray(topic) ? topic : [topic]] *)
Definition topics_of (topic : Topics) : list string :=
  match topic with
  | one t => [t]
  | many ts => ts
  end.

Definition timeout_error : Err :=
  Error "Connection timeout: Unable to connect to broker. Check URL, port, and network connectivity.".

Definition offline_error : Err := Error "Connection went offline".

(** *** The message of [publish]

    [publish] takes any value as its message and applies [typeof] to it,
    then [JSON.stringify] or [String].  These are builtins; [publish] is
    verified for any type [Any] of values with any three such functions.
    [JSON.stringify] returns a string or [undefined], and both conversions
    may throw ([inl]).  A message is a string, the one kind of message the
    form sends, or a value of [Any]. *)
Record Conversions (Any : Type) : Type := {
  typeof_any : Any -> string;
  JSON_stringify_any : Any -> Err + value;
  String_any : Any -> Err + string
}.

Arguments typeof_any {Any} _ _.
Arguments JSON_stringify_any {Any} _ _.
Arguments String_any {Any} _ _.

Inductive MessageArg (Any : Type) : Type :=
| string_message (s : string)
| other_message (x : Any).

Arguments string_message {Any} s.
Arguments other_message {Any} x.

(** [typeof message] *)
Definition typeof_message {Any} (B : Conversions Any) (message : MessageArg Any)
    : string :=
  match message with
  | string_message _ => "string"
  | other_message x => typeof_any B x
  end.

(** [JSON.stringify(message)] *)
Definition JSON_stringify_message {Any} (B : Conversions Any)
    (message : MessageArg Any) : Err + value :=
  match message with
  | string_message s => inr (VStr (QuoteJSONString s))
  | other_message x => JSON_stringify_any B x
  end.

(** [String(message)] *)
Definition String_message {Any} (B : Conversions Any) (message : MessageArg Any)
    : Err + value :=
  match message with
  | string_message s => inr (VStr s)
  | other_message x =>
      match String_any B x with
      | inr str => inr (VStr str)
      | inl e => inl e
      end
  end.

(** [typeof message === 'object' ? JSON.stringify(message) : String(message)] *)
Definition payload_of {Any} (B : Conversions Any) (message : MessageArg Any)
    : Err + value :=
  if String.eqb (typeof_message B message) "object"
  then JSON_stringify_message B message
  else String_message B message.

(** The conversions of plain data; none of them throws. *)
Definition plain_data : Conversions value :=
  {| typeof_any := typeof;
     JSON_stringify_any := fun v => inr (JSON_stringify v);
     String_any := fun v => inr (String_ v) |}.

Section useMqtt.

(** The payload of an inbound message and its [toString()]. *)
Variable Buffer : Type.
Variable Buffer_toString : Buffer -> string.

(** [JSON.parse]; [None] when it throws. *)
Variable JSON_parse : string -> option value.

(** The refs as [useMqtt(options)] creates them. *)
Definition useMqtt (brokerUrl : option string) (clientOptions : option Object)
    : State :=
  {| client := None;
     isConnected := false;
     isConnecting := false;
     error := None;
     messages := [];
     subscriptions := [];
     currentBrokerUrl := default "ws://localhost:8083/mqtt" brokerUrl;
     currentClientOptions := default ∅ clientOptions;
     connectionTimeout := None |}.

(** [if (connectionTimeout.value) { clearTimeout(...); connectionTimeout.value = null }] *)
Definition clear_connectionTimeout : M unit :=
  pending <- get connectionTimeout ;;
  match pending with
  | Some id => do_clearTimeout id ;; assign set_connectionTimeout None
  | None => ret tt
  end.

(** The handler [connect] gives to [setTimeout]. *)
Definition on_timeout : M unit :=
  connecting <- get isConnecting ;;
  connected <- get isConnected ;;
  when (connecting && negb connected) (
    assign set_isConnecting false ;;
    assign set_error (Some timeout_error) ;;
    c <- get client ;;
    match c with
    | Some h => call (client_end h) ;; assign set_client None
    | None => ret tt
    end ;;
    call (console_error [text "Connection timeout"])).

(** The options [connect] passes to [mqtt.connect]: the stored options
    spread over the defaults. *)
Definition defaultOptions (rnd : string) (stored : Object) : Object :=
  stored ∪ <["clientId" := VStr ("vue-mqtt-" ++ rnd)]>
             (<["clean" := VBool true]>
               (<["reconnectPeriod" := VNum 1000]>
                 (<["connectTimeout" := VNum (10 * 1000)]> ∅))).

(** [connect(url, opts)].  [rnd] is what
    [Math.random().toString(16).substr(2, 8)] evaluates to, [thrown] what
    [mqtt.connect] throws, if it does. *)
Definition connect (url : option string) (opts : option Object)
    (rnd : string) (thrown : option Err) : M unit :=
  connecting <- get isConnecting ;;
  connected <- get isConnected ;;
  if connecting || connected then ret tt else
  match url with
  | Some (String _ _ as u) => assign set_currentBrokerUrl u
  | _ => ret tt
  end ;;
  match opts with
  | Some o =>
      stored <- get currentClientOptions ;;
      assign set_currentClientOptions (o ∪ stored)
  | None => ret tt
  end ;;
  assign set_isConnecting true ;;
  assign set_error None ;;
  pending <- get connectionTimeout ;;
  match pending with
  | Some id => do_clearTimeout id
  | None => ret tt
  end ;;
  id <- do_setTimeout 15000 ;;
  assign set_connectionTimeout (Some id) ;;
  stored <- get currentClientOptions ;;
  broker <- get currentBrokerUrl ;;
  r <- do_mqtt_connect broker (defaultOptions rnd stored) thrown ;;
  match r with
  | inr h =>
      assign set_client (Some h) ;;
      call (client_on h "connect") ;;
      call (client_on h "error") ;;
      call (client_on h "close") ;;
      call (client_on h "reconnect") ;;
      call (client_on h "offline") ;;
      call (client_on h "message")
  | inl e =>
      assign set_error (Some e) ;;
      assign set_isConnecting false ;;
      call (console_error [text "Failed to create MQTT client:"; err e])
  end.

(** *** The handlers attached to the client *)

Definition on_connect : M unit :=
  assign set_isConnected true ;;
  assign set_isConnecting false ;;
  assign set_error None ;;
  clear_connectionTimeout ;;
  call (console_log [text "MQTT Connected"]).

Definition on_error (e : Err) : M unit :=
  assign set_error (Some e) ;;
  assign set_isConnecting false ;;
  clear_connectionTimeout ;;
  call (console_error [text "MQTT Error:"; err e]).

Definition on_close : M unit :=
  assign set_isConnected false ;;
  assign set_isConnecting false ;;
  clear_connectionTimeout ;;
  call (console_log [text "MQTT Disconnected"]).

Definition on_reconnect : M unit :=
  assign set_isConnecting true ;;
  call (console_log [text "MQTT Reconnecting..."]).

Definition on_offline : M unit :=
  assign set_isConnected false ;;
  assign set_isConnecting false ;;
  clear_connectionTimeout ;;
  assign set_error (Some offline_error) ;;
  call (console_log [text "MQTT Offline"]).

(** [now] is [new Date().toISOString()] at the time of the event. *)
Definition on_message (topic : string) (message : Buffer) (now : string)
    : M unit :=
  let payload := Buffer_toString message in
  log <- get messages ;;
  match JSON_parse payload with
  | Some data =>
      assign set_messages
        ({| topic := topic; data := data; raw := payload; timestamp := now |}
           :: log)
  | None =>
      assign set_messages
        ({| topic := topic; data := VStr payload; raw := payload;
            timestamp := now |} :: log)
  end.

(** *** [disconnect], [subscribe], [unsubscribe], [publish] *)

Definition disconnect : M unit :=
  clear_connectionTimeout ;;
  c <- get client ;;
  match c with
  | Some h =>
      subs <- get subscriptions ;;
      forEach subs (fun topic => call (client_unsubscribe h topic false)) ;;
      assign set_subscriptions [] ;;
      call (client_end h) ;;
      assign set_client None ;;
      assign set_isConnected false ;;
      assign set_isConnecting false ;;
      assign set_messages []
  | None => ret tt
  end.

Definition subscribe (topic : Topics) (options : Object) : M unit :=
  c <- get client ;;
  connected <- get isConnected ;;
  match c, connected with
  | Some h, true =>
      let topics := topics_of topic in
      let defaultOptions := options ∪ {["qos" := VNum 0]} in
      forEach topics (fun t =>
        subs <- get subscriptions ;;
        when (negb (Set_has t subs)) (
          call (client_subscribe h t defaultOptions) ;;
          hand_over (subscribe_cb t)))
  | _, _ => call (console_warn [text "MQTT client not connected"])
  end.

Definition unsubscribe (topic : Topics) : M unit :=
  c <- get client ;;
  connected <- get isConnected ;;
  match c, connected with
  | Some h, true =>
      let topics := topics_of topic in
      forEach topics (fun t =>
        subs <- get subscriptions ;;
        when (Set_has t subs) (
          call (client_unsubscribe h t true) ;;
          hand_over (unsubscribe_cb t)))
  | _, _ => ret tt
  end.

(** When a conversion of the message throws, the exception leaves
    [publish]: nothing has been called by then. *)
Definition publish {Any} (B : Conversions Any) (topic : string)
    (message : MessageArg Any) (options : Object) : M unit :=
  c <- get client ;;
  connected <- get isConnected ;;
  match c, connected with
  | Some h, true =>
      match payload_of B message with
      | inr payload =>
          let defaultOptions :=
            options ∪ <["qos" := VNum 0]> (<["retain" := VBool false]> ∅) in
          call (client_publish h topic payload defaultOptions) ;;
          hand_over (publish_cb topic payload)
      | inl thrown => ret tt
      end
  | _, _ => call (console_warn [text "MQTT client not connected"])
  end.

(** A client invoking a completion callback, with an error or without. *)
Definition invoke (cb : Callback) (e : option Err) : M unit :=
  match cb, e with
  | subscribe_cb t, Some e =>
      call (console_error [text ("Failed to subscribe to " ++ t ++ ":"); err e])
  | subscribe_cb t, None =>
      subs <- get subscriptions ;;
      assign set_subscriptions (Set_add t subs) ;;
      call (console_log [text ("Subscribed to " ++ t)])
  | unsubscribe_cb t, Some e =>
      call (console_error [text ("Failed to unsubscribe from " ++ t ++ ":"); err e])
  | unsubscribe_cb t, None =>
      subs <- get subscriptions ;;
      assign set_subscriptions (Set_delete t subs) ;;
      call (console_log [text ("Unsubscribed from " ++ t)])
  | publish_cb topic payload, Some e =>
      call (console_error [text ("Failed to publish to " ++ topic ++ ":"); err e])
  | publish_cb topic payload, None =>
      call (console_log [text ("Published to " ++ topic ++ ":"); val payload])
  end.

(** [clearMessages] of the form: [messages.value = []]. *)
Definition clearMessages : M unit := assign set_messages [].

(** ** Events

    What happens to the session: a call of the owner of the composable,
    an event a client emits, the timer firing, a client invoking a
    completion callback.  Clients emit events in any order and at any
    time once created; a timer fires only while armed, and a callback is
    invoked at most once.  The messages the owner publishes along a
    session are plain data. *)

Inductive Event : Type :=
| Connect (url : option string) (opts : option Object) (rnd : string)
          (thrown : option Err)
| Disconnect
| Subscribe (topic : Topics) (options : Object)
| Unsubscribe (topic : Topics)
| Publish (topic : string) (message : value) (options : Object)
| ClearMessages
| ClientConnect (c : Client)
| ClientError (c : Client) (e : Err)
| ClientClose (c : Client)
| ClientReconnect (c : Client)
| ClientOffline (c : Client)
| ClientMessage (c : Client) (topic : string) (message : Buffer)
                (now : string)
| TimerFired (id : positive)
| Completed (i : nat) (e : option Err).

Definition exec (m : M unit) (c : Config) : Config := snd (m c).

(** The timer [id] has fired: it is armed no longer. *)
Definition fired (id : positive) (w : World) : World :=
  {| clients := clients w; timers := timers w;
     armed := filter (fun x => x ≠ id) (armed w);
     callbacks := callbacks w; calls := calls w |}.

(** The [i]-th pending callback has been invoked. *)
Definition invoked (i : nat) (w : World) : World :=
  {| clients := clients w; timers := timers w; armed := armed w;
     callbacks := delete i (callbacks w); calls := calls w |}.

Definition created (c : Client) (w : World) : bool :=
  bool_decide (c < clients w)%nat.

(** One event; [None] when the event cannot happen in this world. *)
Definition step (e : Event) (c : Config) : option Config :=
  let w := snd c in
  match e with
  | Connect url opts rnd thrown => Some (exec (connect url opts rnd thrown) c)
  | Disconnect => Some (exec disconnect c)
  | Subscribe topic options => Some (exec (subscribe topic options) c)
  | Unsubscribe topic => Some (exec (unsubscribe topic) c)
  | Publish topic message options =>
      Some (exec (publish plain_data topic (other_message message) options) c)
  | ClearMessages => Some (exec clearMessages c)
  | ClientConnect h =>
      if created h w then Some (exec on_connect c) else None
  | ClientError h e =>
      if created h w then Some (exec (on_error e) c) else None
  | ClientClose h =>
      if created h w then Some (exec on_close c) else None
  | ClientReconnect h =>
      if created h w then Some (exec on_reconnect c) else None
  | ClientOffline h =>
      if created h w then Some (exec on_offline c) else None
  | ClientMessage h topic message now =>
      if created h w then Some (exec (on_message topic message now) c)
      else None
  | TimerFired id =>
      if bool_decide (id ∈ armed w)
      then Some (exec on_timeout (fst c, fired id w))
      else None
  | Completed i e =>
      match callbacks w !! i with
      | Some cb => Some (exec (invoke cb e) (fst c, invoked i w))
      | None => None
      end
  end.

Fixpoint run (events : list Event) (c : Config) : option Config :=
  match events with
  | [] => Some c
  | e :: rest =>
      match step e c with
      | Some c' => run rest c'
      | None => None
      end
  end.

Definition world0 : World :=
  {| clients := 0; timers := 1; armed := []; callbacks := []; calls := [] |}.

(** The configurations the session can be in. *)
Definition reachable (c : Config) : Prop :=
  exists brokerUrl clientOptions events,
    run events (useMqtt brokerUrl clientOptions, world0) = Some c.

End useMqtt.

Arguments on_message {Buffer} Buffer_toString JSON_parse topic message now.
Arguments Connect {Buffer} url opts rnd thrown.
Arguments Disconnect {Buffer}.
Arguments Subscribe {Buffer} topic options.
Arguments Unsubscribe {Buffer} topic.
Arguments Publish {Buffer} topic message options.
Arguments ClearMessages {Buffer}.
Arguments ClientConnect {Buffer} c%_nat.
Arguments ClientError {Buffer} c%_nat e.
Arguments ClientClose {Buffer} c%_nat.
Arguments ClientReconnect {Buffer} c%_nat.
Arguments ClientOffline {Buffer} c%_nat.
Arguments ClientMessage {Buffer} c%_nat topic message now.
Arguments TimerFired {Buffer} id.
Arguments Completed {Buffer} i%_nat e.
Arguments step {Buffer} Buffer_toString JSON_parse e c.
Arguments run {Buffer} Buffer_toString JSON_parse events c.
Arguments reachable {Buffer} Buffer_toString JSON_parse c.

(** ** Vocabulary of the properties *)

(** The world after the calls [ks] and after handing over the callbacks
    [cbs]. *)
Definition extend (ks : list Call) (cbs : list Callback) (w : World) : World :=
  {| clients := clients w; timers := timers w; armed := armed w;
     callbacks := callbacks w ++ cbs; calls := calls w ++ ks |}.

(** The session is connected through client [h]: what [subscribe],
    [unsubscribe] and [publish] test before acting. *)
Definition connected_with (h : Client) (s : State) : Prop :=
  client s = Some h /\ isConnected s = true.

Definition not_connected (s : State) : Prop :=
  client s = None \/ isConnected s = false.

(** What disconnect() is to leave behind. *)
Definition torn_down (s : State) : Prop :=
  subscriptions s = [] /\ messages s = [] /\
  isConnected s = false /\ isConnecting s = false.



(** What one event does to the subscription set: nothing, or it empties it
    (disconnect), or it is the acknowledgment of a subscribe or of an
    unsubscribe. *)
Inductive subscriptions_change {Buffer} (e : Event Buffer) (c c' : Config)
    : Prop :=
| sc_same :
    subscriptions (fst c') = subscriptions (fst c) ->
    subscriptions_change e c c'
| sc_cleared :
    e = Disconnect -> subscriptions (fst c') = [] ->
    subscriptions_change e c c'
| sc_added i t :
    e = Completed i None ->
    callbacks (snd c) !! i = Some (subscribe_cb t) ->
    subscriptions (fst c') = Set_add t (subscriptions (fst c)) ->
    subscriptions_change e c c'
| sc_deleted i t :
    e = Completed i None ->
    callbacks (snd c) !! i = Some (unsubscribe_cb t) ->
    subscriptions (fst c') = Set_delete t (subscriptions (fst c)) ->
    subscriptions_change e c c'.

(** The url a call of connect supplies: [null], [undefined] and the empty
    string are falsy and supply none. *)
Definition supplied (url : option string) : option string :=
  match url with
  | Some (String _ _ as u) => Some u
  | _ => None
  end.

(** *** Example sessions

    The examples run on text payloads and on [parse]. *)

Definition fresh : Config := (useMqtt None None, world0).

(** The configuration after [events] on a fresh session. *)
Definition after (events : list (Event string)) : Config :=
  default fresh (run (@id string) parse events fresh).

(** A connect attempt through client 0. *)
Definition attempt : list (Event string) :=
  [ Connect (Some "ws://broker:9001") None "1a2b3c4d" None ].

(** A session connected through client 0. *)
Definition online : list (Event string) :=
  attempt ++ [ ClientConnect 0 ].

(** A connected session with one subscription and one message logged. *)
Definition busy : list (Event string) :=
  online ++
  [ Subscribe (one "gps/location") ∅;
    Completed 0 None;
    ClientMessage 0 "gps/location"
      ("{" ++ dquote ++ "lat" ++ dquote ++ ":1," ++ dquote ++ "lon" ++ dquote ++ ":2}")
      "2025-01-01T00:00:00.000Z" ].

(** A subscribe acknowledged after disconnect() has closed the client: the
    client was closed with [end()], which lets requests in flight
    complete. *)
Definition late_ack : list (Event string) :=
  online ++
  [ Subscribe (one "gps/location") ∅;
    Disconnect;
    Completed 0 None ].

(** The connection of a busy session is lost, the caller connects again
    and the new attempt times out.  The caller had switched the library's
    own reconnecting off and set its connect timeout beyond 15 seconds, so
    neither client emits anything in between. *)
Definition timed_out : list (Event string) :=
  [ Connect (Some "ws://broker:9001")
      (Some (<["reconnectPeriod" := VNum 0]>
               (<["connectTimeout" := VNum 30000]> ∅)))
      "1a2b3c4d" None;
    ClientConnect 0;
    Subscribe (one "gps/location") ∅;
    Completed 0 None;
    ClientMessage 0 "gps/location" "hello" "2025-01-01T00:00:00.000Z";
    ClientClose 0;
    Connect None None "5e6f7a8b" None;
    TimerFired 2 ].

(** subscribe called twice for one topic before the first
    acknowledgment. *)
Definition twice : list (Event string) :=
  online ++
  [ Subscribe (one "t") ∅;
    Subscribe (one "t") ∅;
    Completed 0 None;
    Completed 0 None ].

(** An unsubscribe request in flight. *)
Definition leaving : list (Event string) :=
  online ++
  [ Subscribe (many ["a"; "b"]) ∅;
    Completed 0 None;
    Completed 0 None;
    Unsubscribe (one "a") ].

(** [mqtt.connect] throws: the timer stays armed. *)
Definition refused : list (Event string) :=
  [ Connect (Some "broker:9001") None "1a2b3c4d"
      (Some (Error "Missing protocol")) ].

(** Events during a pending attempt that leave it pending. *)
Definition meanwhile : list (Event string) :=
  [ Subscribe (one "gps/location") ∅;
    ClientReconnect 0;
    Connect None None "55aa55aa" None;
    Publish "gps/data" (VStr "x") ∅ ].

(** The example sessions, run. *)
Definition attempt_session : Config := Eval vm_compute in after attempt.
Definition online_session : Config := Eval vm_compute in after online.
Definition busy_session : Config := Eval vm_compute in after busy.
Definition late_ack_session : Config := Eval vm_compute in after late_ack.
Definition twice_session : Config := Eval vm_compute in after twice.
Definition leaving_session : Config := Eval vm_compute in after leaving.
Definition refused_session : Config := Eval vm_compute in after refused.
Definition timed_out_session : Config := Eval vm_compute in after timed_out.
Definition waiting_session : Config :=
  Eval vm_compute in after (attempt ++ meanwhile).

(** ** The form

    The script of [App.vue]: the fields bound to the inputs, and the
    handlers of the buttons, which call the composable. *)

(** A string in a condition: the empty string is falsy. *)
Definition truthy (s : string) : bool :=
  match s with
  | EmptyString => false
  | String _ _ => true
  end.

(** *** [String.prototype.trim]

    The white space and line terminator characters [trim] removes, as the
    bytes of their UTF-8 encoding: tab, line feed, vertical tab, form feed,
    carriage return, space, U+00A0, U+1680, U+2000 to U+200A, U+2028, U+2029,
    U+202F, U+205F, U+3000 and U+FEFF. *)
Definition bytes (codes : list N) : string :=
  string_of_list_ascii (map ascii_of_N codes).

Definition white_space : list string :=
  map bytes
    [ [9]; [10]; [11]; [12]; [13]; [32];
      [194; 160]; [225; 154; 128];
      [226; 128; 128]; [226; 128; 129]; [226; 128; 130]; [226; 128; 131];
      [226; 128; 132]; [226; 128; 133]; [226; 128; 134]; [226; 128; 135];
      [226; 128; 136]; [226; 128; 137]; [226; 128; 138];
      [226; 128; 168]; [226; 128; 169]; [226; 128; 175];
      [226; 129; 159]; [227; 128; 128]; [239; 187; 191] ]%N.

(** [s] without its prefix [p], if [p] is a prefix. *)
Fixpoint strip_prefix (p s : string) : option string :=
  match p, s with
  | EmptyString, _ => Some s
  | String a p', String b s' => if Ascii.eqb a b then strip_prefix p' s' else None
  | String _ _, EmptyString => None
  end.

(** [s] without one of [seqs] at its head. *)
Fixpoint strip_one (seqs : list string) (s : string) : option string :=
  match seqs with
  | [] => None
  | p :: rest =>
      match strip_prefix p s with
      | Some s' => Some s'
      | None => strip_one rest s
      end
  end.

Fixpoint strip_all (seqs : list string) (fuel : nat) (s : string) : string :=
  match fuel with
  | O => s
  | S fuel =>
      match strip_one seqs s with
      | Some s' => strip_all seqs fuel s'
      | None => s
      end
  end.

Definition trimStart (s : string) : string :=
  strip_all white_space (String.length s) s.

Definition trimEnd (s : string) : string :=
  String.rev
    (strip_all (map String.rev white_space) (String.length s) (String.rev s)).

Definition trim (s : string) : string := trimEnd (trimStart s).

(** *** The fields and the handlers *)

Record Form : Type := {
  brokerUrl : string;
  username : string;
  password : string;
  clientId : string;
  subscribeTopic : string;
  publishTopic : string;
  publishMessage : string
}.

(** The fields as the script initialises them. *)
Definition form0 : Form :=
  {| brokerUrl := "ws://202.51.82.87:9001";
     username := "";
     password := "";
     clientId := "";
     subscribeTopic := "gps/location";
     publishTopic := "gps/data";
     publishMessage := "" |}.

Definition set_publishMessage (v : string) (f : Form) : Form :=
  {| brokerUrl := brokerUrl f; username := username f; password := password f;
     clientId := clientId f; subscribeTopic := subscribeTopic f;
     publishTopic := publishTopic f; publishMessage := v |}.

Definition set_brokerUrl (v : string) (f : Form) : Form :=
  {| brokerUrl := v; username := username f; password := password f;
     clientId := clientId f; subscribeTopic := subscribeTopic f;
     publishTopic := publishTopic f; publishMessage := publishMessage f |}.

(** The [clientOptions] object [handleConnect] builds: a field enters it,
    trimmed, when it is not empty and not blank. *)
Definition handleConnect_options (f : Form) : Object :=
  let clientOptions : Object := ∅ in
  let clientOptions :=
    if truthy (username f) && truthy (trim (username f))
    then <["username" := VStr (trim (username f))]> clientOptions
    else clientOptions in
  let clientOptions :=
    if truthy (password f) && truthy (trim (password f))
    then <["password" := VStr (trim (password f))]> clientOptions
    else clientOptions in
  let clientOptions :=
    if truthy (clientId f) && truthy (trim (clientId f))
    then <["clientId" := VStr (trim (clientId f))]> clientOptions
    else clientOptions in
  clientOptions.

Definition handleConnect (f : Form) (rnd : string) (thrown : option Err)
    : M unit :=
  connect (Some (brokerUrl f)) (Some (handleConnect_options f)) rnd thrown.

Definition handleSubscribe (f : Form) : M unit :=
  when (truthy (subscribeTopic f)) (subscribe (one (subscribeTopic f)) ∅).

Definition handleUnsubscribe (f : Form) : M unit :=
  when (truthy (subscribeTopic f)) (unsubscribe (one (subscribeTopic f))).

(** [handlePublish] changes the session and the message field. *)
Definition handlePublish (f : Form) (c : Config) : Form * Config :=
  if truthy (publishTopic f) && truthy (publishMessage f)
  then (set_publishMessage "" f,
        exec (publish plain_data (publishTopic f)
                      (string_message (publishMessage f)) ∅) c)
  else (f, c).

Definition cancelConnection : M unit := disconnect.

(** *** The url helpers *)

(** The line terminators, which [.] in a regular expression does not
    match: line feed, carriage return, U+2028 and U+2029. *)
Definition line_terminators : list string :=
  map bytes [ [10]; [13]; [226; 128; 168]; [226; 128; 169] ]%N.

(** Does [.*] stop before the end of [s]? *)
Fixpoint has_line_terminator (s : string) : bool :=
  match strip_one line_terminators s with
  | Some _ => true
  | None =>
      match s with
      | EmptyString => false
      | String _ rest => has_line_terminator rest
      end
  end.

Definition slash : ascii := "/"%char.

(** The longest prefix of [s] without a slash, and the rest. *)
Fixpoint span_no_slash (s : string) : string * string :=
  match s with
  | EmptyString => (EmptyString, EmptyString)
  | String c rest =>
      if Ascii.eqb c slash then (EmptyString, s)
      else let (h, p) := span_no_slash rest in (String c h, p)
  end.

(** The first group of a match of the regular expression of
    [tryAlternativeUrls] (anchored at both ends: the scheme [ws://] or
    [wss://] and one or more characters other than a slash as the first
    group, then optionally a slash and any characters that [.] matches):
    the scheme and the longest run without a slash. *)
Definition match_base (url : string) : option string :=
  let after_scheme scheme :=
    match strip_prefix scheme url with
    | Some rest =>
        let (host, path) := span_no_slash rest in
        if truthy host then
          match path with
          | EmptyString => Some (scheme ++ host)
          | String _ tail =>
              if has_line_terminator tail then None else Some (scheme ++ host)
          end
        else None
    | None => None
    end in
  match after_scheme "wss://" with
  | Some base => Some base
  | None => after_scheme "ws://"
  end.

(** [[...new Set(l)]]: the elements of [l], each once, in the order of
    their first occurrence. *)
Definition Set_of (l : list string) : list string :=
  fold_left (fun s x => Set_add x s) l [].

Definition tryAlternativeUrls (f : Form) : list string :=
  let baseUrl := brokerUrl f in
  let alternatives :=
    match match_base baseUrl with
    | Some base => [base ++ "/mqtt"; base ++ "/ws"; base ++ "/"; base]
    | None => []
    end in
  Set_of alternatives.

(** [s.replace(/\/.*$/, '')]: [s] up to its first slash from which [.*]
    reaches the end; [s] itself when there is none. *)
Fixpoint cut_path (s : string) : string :=
  match s with
  | EmptyString => EmptyString
  | String c rest =>
      if Ascii.eqb c slash && negb (has_line_terminator rest)
      then EmptyString
      else String c (cut_path rest)
  end.

(** The buttons Try with /mqtt and Try with /ws. *)
Definition try_with (path : string) (f : Form) : Form :=
  set_brokerUrl (cut_path (brokerUrl f) ++ path) f.

(** ** Vocabulary of the further properties *)

(** At most one timer is armed, and [connectionTimeout] holds it. *)
Definition one_timer (c : Config) : Prop :=
  armed (snd c) = [] \/
  exists id, armed (snd c) = [id] /\ connectionTimeout (fst c) = Some id.

(** The events on which the session gives up or completes an attempt. *)
Definition cancels_timer {Buffer} (e : Event Buffer) : bool :=
  match e with
  | ClientConnect _ | ClientError _ _ | ClientClose _ | ClientOffline _
  | Disconnect => true
  | _ => false
  end.


(** The events that can set [isConnecting]: connect(), and a client
    reporting a reconnect attempt of the library. *)
Definition starts_connecting {Buffer} (e : Event Buffer) : bool :=
  match e with
  | Connect _ _ _ _ | ClientReconnect _ => true
  | _ => false
  end.

(** An inbound message: the client that delivers it, its topic, its
    payload and the time of its arrival. *)
Record Inbound (Buffer : Type) : Type := {
  sender : Client;
  inbound_topic : string;
  inbound_payload : Buffer;
  arrival : string
}.

Arguments sender {Buffer} i.
Arguments inbound_topic {Buffer} i.
Arguments inbound_payload {Buffer} i.
Arguments arrival {Buffer} i.

Definition inbound {Buffer} (m : Inbound Buffer) : Event Buffer :=
  ClientMessage (sender m) (inbound_topic m) (inbound_payload m) (arrival m).

(** The record the message handler makes of an inbound message. *)
Definition logged {Buffer} (Buffer_toString : Buffer -> string)
    (JSON_parse : string -> option value) (m : Inbound Buffer) : Message :=
  let payload := Buffer_toString (inbound_payload m) in
  {| topic := inbound_topic m;
     data := match JSON_parse payload with
             | Some parsed => parsed
             | None => VStr payload
             end;
     raw := payload;
     timestamp := arrival m |}.

(** The client handle, if any, names a client that [mqtt.connect] has
    returned. *)
Definition holds_created_client (c : Config) : Prop :=
  forall h, client (fst c) = Some h -> (h < clients (snd c))%nat.

(** Does the character [c] occur in [s]? *)
Fixpoint occurs (c : ascii) (s : string) : bool :=
  match s with
  | EmptyString => false
  | String x rest => Ascii.eqb x c || occurs c rest
  end.

(** *** More example sessions *)

(** The connection of a busy session is lost. *)
Definition closed : list (Event string) := busy ++ [ ClientClose 0 ].

(** A publish request in flight. *)
Definition publishing : list (Event string) :=
  online ++ [ Publish "gps/data" (VStr "hello") ∅ ].

(** A form with a user name between blanks and a blank client id. *)
Definition pilot_form : Form :=
  {| brokerUrl := "ws://broker:9001";
     username := "  pilot ";
     password := "secret";
     clientId := "   ";
     subscribeTopic := "gps/location";
     publishTopic := "gps/data";
     publishMessage := "{" ++ dquote ++ "lat" ++ dquote ++ ":1}" |}.

(** The same form with the credentials erased. *)
Definition erased_form : Form :=
  {| brokerUrl := "ws://broker:9001";
     username := "";
     password := "";
     clientId := "";
     subscribeTopic := "gps/location";
     publishTopic := "gps/data";
     publishMessage := "" |}.

(** A session that has connected with the credentials of [pilot_form] and
    has disconnected. *)
Definition returning : list (Event string) :=
  [ Connect (Some (brokerUrl pilot_form))
      (Some (handleConnect_options pilot_form)) "1a2b3c4d" None;
    ClientConnect 0;
    Disconnect ].


Definition closed_session : Config := Eval vm_compute in after closed.
Definition publishing_session : Config := Eval vm_compute in after publishing.
Definition returning_session : Config := Eval vm_compute in after returning.

(** ** Properties *)

(** *** Running the sequencing operators *)

Lemma extend_nil (w : World) : extend [] [] w = w.
Proof. destruct w; unfold extend; simpl. now rewrite !app_nil_r. Qed.

Lemma extend_extend ks1 cbs1 ks2 cbs2 (w : World) :
  extend ks2 cbs2 (extend ks1 cbs1 w) = extend (ks1 ++ ks2) (cbs1 ++ cbs2) w.
Proof. unfold extend; simpl. now rewrite !app_assoc. Qed.

Lemma call_extend k (s : State) (w : World) :
  call k (s, w) = (tt, (s, extend [k] [] w)).
Proof. unfold call, extend; simpl. now rewrite app_nil_r. Qed.

Lemma hand_over_extend cb (s : State) (w : World) :
  hand_over cb (s, w) = (tt, (s, extend [] [cb] w)).
Proof. unfold hand_over, extend; simpl. now rewrite app_nil_r. Qed.

Lemma forEach_call {A} (f : A -> Call) (l : list A) (s : State) (w : World) :
  forEach l (fun x => call (f x)) (s, w) = (tt, (s, extend (map f l) [] w)).
Proof.
  revert w; induction l as [|x l IH]; intros w; simpl.
  - now rewrite extend_nil.
  - unfold bind. rewrite call_extend, IH, extend_extend. reflexivity.
Qed.

Ltac js :=
  cbv beta iota zeta delta
    [bind ret get assign when exec fst snd andb orb negb
     clear_connectionTimeout on_timeout connect disconnect
     on_connect on_error on_close on_reconnect on_offline on_message
     subscribe unsubscribe publish invoke clearMessages
     set_client set_isConnected set_isConnecting set_error set_messages
     set_subscriptions set_currentBrokerUrl set_currentClientOptions
     set_connectionTimeout
     client isConnected isConnecting error messages subscriptions
     currentBrokerUrl currentClientOptions connectionTimeout
     do_clearTimeout do_setTimeout do_mqtt_connect
     clients timers armed callbacks calls].

Ltac js_run :=
  repeat progress
    (js; rewrite ?forEach_call, ?call_extend, ?hand_over_extend).

Section Properties.

Context {Buffer : Type}.
Variable Buffer_toString : Buffer -> string.
Variable JSON_parse : string -> option value.

Local Abbreviation step := (step Buffer_toString JSON_parse).
Local Abbreviation run := (run Buffer_toString JSON_parse).
Local Abbreviation reachable := (reachable Buffer_toString JSON_parse).

(** C2. connect(url, opts) while the session is connecting or connected
    is a no-op: every ref (connected and connecting flags, error, stored
    broker URL and options, message log, subscription set, client handle,
    pending timer) keeps its value, and nothing is asked of the MQTT
    library or of the timers, so no second attempt is created. *)
Theorem connect_while_busy_is_noop :
  forall (s : State) (w : World) url opts rnd thrown,
    isConnecting s = true \/ isConnected s = true ->
    connect url opts rnd thrown (s, w) = (tt, (s, w)).
Proof.
  intros s w url opts rnd thrown busy.
  unfold connect, bind, get; simpl.
  destruct busy as [-> | ->]; [reflexivity|].
  now rewrite orb_true_r.
Qed.

(** C10. When the timer fires while the session is not connecting, or is
    already connected, the handler changes nothing: flags, error, client
    handle, message log and subscription set (indeed every ref) are left
    as they were, and no call is made. *)
Theorem stale_timeout_changes_nothing :
  forall (s : State) (w : World),
    isConnecting s = false \/ isConnected s = true ->
    on_timeout (s, w) = (tt, (s, w)).
Proof.
  intros s w stale.
  unfold on_timeout, bind, get; simpl.
  destruct stale as [-> | ->]; [reflexivity|].
  now rewrite andb_false_r.
Qed.

(** *** disconnect *)

Lemma disconnect_with_client (s : State) (w : World) (h : Client) :
  client s = Some h ->
  fst (exec disconnect (s, w)) =
    set_messages [] (set_isConnecting false (set_isConnected false
      (set_client None (set_subscriptions []
        (set_connectionTimeout None s))))) /\
  exists cleared,
    calls (snd (exec disconnect (s, w))) =
      (calls w ++ cleared
        ++ map (fun t => client_unsubscribe h t false) (subscriptions s)
        ++ [client_end h])%list.
Proof.
  intros Hc. destruct s as [cl cd cg er ms sb url op tm]; simpl in Hc; subst cl.
  destruct tm as [id|]; js_run; (split; [reflexivity|]).
  - exists [clearTimeout id]. simpl. now rewrite <- !app_assoc.
  - exists []. simpl. now rewrite <- !app_assoc.
Qed.

Lemma disconnect_without_client (s : State) (w : World) :
  client s = None ->
  fst (exec disconnect (s, w)) = set_connectionTimeout None s.
Proof.
  intros Hc. destruct s as [cl cd cg er ms sb url op tm]; simpl in Hc; subst cl.
  destruct tm as [id|]; reflexivity.
Qed.

(** C1, amended.  When the session holds a client handle, disconnect()
    leaves the subscription set empty, the message log empty and both the
    connected and the connecting flag false (and the handle and the
    pending timer cleared), whatever the state was.  When it holds no
    handle, disconnect() only clears the pending timer: the subscription
    set, the message log and the flags stay as they were. *)
Theorem disconnect_tears_down_held_client :
  forall (s : State) (w : World),
    (forall h, client s = Some h ->
       torn_down (fst (exec disconnect (s, w))) /\
       client (fst (exec disconnect (s, w))) = None /\
       connectionTimeout (fst (exec disconnect (s, w))) = None) /\
    (client s = None ->
       fst (exec disconnect (s, w)) = set_connectionTimeout None s).
Proof.
  intros s w; split.
  - intros h Hc. destruct (disconnect_with_client s w h Hc) as [-> _].
    unfold torn_down; simpl. tauto.
  - apply disconnect_without_client.
Qed.

(** *** The pending attempt and its timer *)






(** *** subscribe and unsubscribe *)

Lemma request_one (want : string -> list string -> bool)
    (k : string -> Call) (cb : string -> Callback)
    (t : string) (s : State) (w : World) :
  (subs <- get subscriptions ;;
   when (want t subs) (call (k t) ;; hand_over (cb t))) (s, w) =
  (tt, (s, if want t (subscriptions s)
           then extend [k t] [cb t] w else w)).
Proof.
  cbv [bind get when ret fst snd].
  destruct (want t (subscriptions s)); [|reflexivity].
  now rewrite call_extend, hand_over_extend, extend_extend.
Qed.

Lemma forEach_request (want : string -> list string -> bool)
    (k : string -> Call) (cb : string -> Callback)
    (topics : list string) (s : State) (w : World) :
  forEach topics (fun t =>
    subs <- get subscriptions ;;
    when (want t subs) (call (k t) ;; hand_over (cb t))) (s, w) =
  (tt, (s, let asked := List.filter (fun t => want t (subscriptions s)) topics in
           extend (map k asked) (map cb asked) w)).
Proof.
  revert w; induction topics as [|t topics IH]; intros w.
  - simpl. now rewrite extend_nil.
  - cbn [forEach]. unfold bind at 1. rewrite request_one, IH.
    cbn [List.filter]. destruct (want t (subscriptions s)); [|reflexivity].
    cbv zeta. now rewrite extend_extend.
Qed.

Lemma subscribe_not_connected (s : State) (w : World) topic options :
  not_connected s ->
  exec (subscribe topic options) (s, w) =
    (s, extend [console_warn [text "MQTT client not connected"]] [] w).
Proof.
  intros Hn. destruct s as [cl cd cg er ms sb u op tm]; simpl in *.
  destruct Hn as [Hn | Hn]; simpl in Hn; subst.
  - js_run. reflexivity.
  - destruct cl; js_run; reflexivity.
Qed.

Lemma subscribe_connected (s : State) (w : World) h topic options :
  connected_with h s ->
  exec (subscribe topic options) (s, w) =
    (s, let asked :=
          List.filter (fun t => negb (Set_has t (subscriptions s)))
            (topics_of topic) in
        extend
          (map (fun t => client_subscribe h t (options ∪ {["qos" := VNum 0]}))
             asked)
          (map subscribe_cb asked) w).
Proof.
  intros [Hc Hd]. destruct s as [cl cd cg er ms sb u op tm]; simpl in *; subst.
  unfold exec, subscribe. unfold bind at 1. unfold bind at 1. unfold get.
  cbn [fst snd client isConnected].
  rewrite (forEach_request (fun t subs => negb (Set_has t subs))
             (fun t => client_subscribe h t (options ∪ {["qos" := VNum 0]}))
             subscribe_cb).
  reflexivity.
Qed.

Lemma unsubscribe_not_connected (s : State) (w : World) topic :
  not_connected s -> exec (unsubscribe topic) (s, w) = (s, w).
Proof.
  intros Hn. destruct s as [cl cd cg er ms sb u op tm]; simpl in *.
  destruct Hn as [Hn | Hn]; simpl in Hn; subst.
  - reflexivity.
  - destruct cl; reflexivity.
Qed.

Lemma unsubscribe_connected (s : State) (w : World) h topic :
  connected_with h s ->
  exec (unsubscribe topic) (s, w) =
    (s, let asked :=
          List.filter (fun t => Set_has t (subscriptions s))
            (topics_of topic) in
        extend (map (fun t => client_unsubscribe h t true) asked)
          (map unsubscribe_cb asked) w).
Proof.
  intros [Hc Hd]. destruct s as [cl cd cg er ms sb u op tm]; simpl in *; subst.
  unfold exec, unsubscribe. unfold bind at 1. unfold bind at 1. unfold get.
  cbn [fst snd client isConnected].
  rewrite (forEach_request Set_has
             (fun t => client_unsubscribe h t true) unsubscribe_cb).
  reflexivity.
Qed.

Lemma Set_has_true t (l : list string) : Set_has t l = true <-> t ∈ l.
Proof. unfold Set_has. apply bool_decide_eq_true. Qed.

Lemma Set_has_false t (l : list string) : Set_has t l = false <-> t ∉ l.
Proof. unfold Set_has. apply bool_decide_eq_false. Qed.

Lemma elem_of_Set_add t x (l : list string) :
  x ∈ Set_add t l <-> x = t \/ x ∈ l.
Proof.
  unfold Set_add. destruct (Set_has t l) eqn:E.
  - apply Set_has_true in E. split; [auto|]. intros [-> | ?]; auto.
  - rewrite elem_of_app, list_elem_of_singleton. tauto.
Qed.

Lemma elem_of_Set_delete t x (l : list string) :
  x ∈ Set_delete t l <-> x ≠ t /\ x ∈ l.
Proof. unfold Set_delete. now rewrite list_elem_of_filter. Qed.

Lemma NoDup_Set_add t (l : list string) : NoDup l -> NoDup (Set_add t l).
Proof.
  intros Hl. unfold Set_add. destruct (Set_has t l) eqn:E; [exact Hl|].
  apply Set_has_false in E. apply NoDup_app. repeat split; auto.
  - intros x Hx Hx'. apply list_elem_of_singleton in Hx'. now subst.
  - apply NoDup_singleton.
Qed.

Lemma NoDup_Set_delete t (l : list string) : NoDup l -> NoDup (Set_delete t l).
Proof. apply NoDup_filter. Qed.

Lemma subscribe_state (s : State) (w : World) topic options :
  fst (exec (subscribe topic options) (s, w)) = s.
Proof.
  destruct (client s) as [h|] eqn:Hc; [destruct (isConnected s) eqn:Hd|].
  - now rewrite (subscribe_connected s w h) by (split; assumption).
  - now rewrite subscribe_not_connected by (right; assumption).
  - now rewrite subscribe_not_connected by (left; assumption).
Qed.

Lemma unsubscribe_state (s : State) (w : World) topic :
  fst (exec (unsubscribe topic) (s, w)) = s.
Proof.
  destruct (client s) as [h|] eqn:Hc; [destruct (isConnected s) eqn:Hd|].
  - now rewrite (unsubscribe_connected s w h) by (split; assumption).
  - now rewrite unsubscribe_not_connected by (right; assumption).
  - now rewrite unsubscribe_not_connected by (left; assumption).
Qed.

(** *** publish *)

Lemma publish_not_connected {Any} (B : Conversions Any) (s : State) (w : World)
    topic message options :
  not_connected s ->
  exec (publish B topic message options) (s, w) =
    (s, extend [console_warn [text "MQTT client not connected"]] [] w).
Proof.
  intros Hn. destruct s as [cl cd cg er ms sb u op tm]; simpl in *.
  destruct Hn as [Hn | Hn]; simpl in Hn; subst.
  - js_run. reflexivity.
  - destruct cl; js_run; reflexivity.
Qed.

Lemma publish_connected {Any} (B : Conversions Any) (s : State) (w : World)
    h topic message options payload :
  connected_with h s ->
  payload_of B message = inr payload ->
  exec (publish B topic message options) (s, w) =
    (s, extend
          [client_publish h topic payload
             (options ∪ <["qos" := VNum 0]> (<["retain" := VBool false]> ∅))]
          [publish_cb topic payload] w).
Proof.
  intros [Hc Hd] Hp. destruct s as [cl cd cg er ms sb u op tm]; simpl in *; subst.
  js_run. rewrite Hp. js_run. now rewrite extend_extend.
Qed.

Lemma publish_throws {Any} (B : Conversions Any) (s : State) (w : World)
    h topic message options e :
  connected_with h s ->
  payload_of B message = inl e ->
  exec (publish B topic message options) (s, w) = (s, w).
Proof.
  intros [Hc Hd] Hp. destruct s as [cl cd cg er ms sb u op tm]; simpl in *; subst.
  js_run. rewrite Hp. js_run. reflexivity.
Qed.

Lemma publish_state {Any} (B : Conversions Any) (s : State) (w : World)
    topic message options :
  fst (exec (publish B topic message options) (s, w)) = s.
Proof.
  destruct (client s) as [h|] eqn:Hc; [destruct (isConnected s) eqn:Hd|].
  - destruct (payload_of B message) as [e | payload] eqn:Hp.
    + now rewrite (publish_throws B s w h _ _ _ e) by (try split; assumption).
    + now rewrite (publish_connected B s w h _ _ _ payload)
        by (try split; assumption).
  - now rewrite publish_not_connected by (right; assumption).
  - now rewrite publish_not_connected by (left; assumption).
Qed.

(** The payload of a message of plain data. *)
Lemma payload_of_plain_data (message : value) :
  payload_of plain_data (other_message message) =
    inr (if String.eqb (typeof message) "object"
         then JSON_stringify message
         else VStr (String_ message)).
Proof.
  unfold payload_of. simpl. now destruct (String.eqb (typeof message) "object").
Qed.

(** *** The subscription set along a run *)

Lemma connect_state (s : State) (w : World) url opts rnd thrown :
  subscriptions (fst (exec (connect url opts rnd thrown) (s, w))) =
    subscriptions s /\
  messages (fst (exec (connect url opts rnd thrown) (s, w))) = messages s.
Proof.
  destruct s as [cl cd cg er ms sb u op tm].
  destruct cg, cd; try (split; reflexivity).
  destruct url as [[|a u']|], opts as [o|], tm as [id|], thrown as [e|];
    js_run; split; reflexivity.
Qed.

Lemma on_timeout_subscriptions (s : State) (w : World) :
  subscriptions (fst (exec on_timeout (s, w))) = subscriptions s.
Proof.
  destruct s as [cl cd cg er ms sb u op tm].
  destruct cg, cd, cl; js_run; reflexivity.
Qed.

Lemma step_subscriptions (e : Event Buffer) (c c' : Config) :
  step e c = Some c' -> subscriptions_change e c c'.
Proof.
  destruct c as [s w]. intros Hstep.
  destruct e; simpl in Hstep;
    try (destruct (created c w); [|discriminate Hstep]).
  - injection Hstep as <-. apply sc_same, connect_state.
  - injection Hstep as <-. destruct (client s) as [h|] eqn:Hc.
    + apply sc_cleared; [reflexivity|].
      now destruct (disconnect_with_client s w h Hc) as [-> _].
    + apply sc_same. now rewrite disconnect_without_client.
  - injection Hstep as <-. apply sc_same. now rewrite subscribe_state.
  - injection Hstep as <-. apply sc_same. now rewrite unsubscribe_state.
  - injection Hstep as <-. apply sc_same. now rewrite publish_state.
  - injection Hstep as <-. now apply sc_same.
  - injection Hstep as <-. apply sc_same.
    destruct s as [cl cd cg er ms sb u op [id|]]; reflexivity.
  - injection Hstep as <-. apply sc_same.
    destruct s as [cl cd cg er ms sb u op [id|]]; reflexivity.
  - injection Hstep as <-. apply sc_same.
    destruct s as [cl cd cg er ms sb u op [id|]]; reflexivity.
  - injection Hstep as <-. now apply sc_same.
  - injection Hstep as <-. apply sc_same.
    destruct s as [cl cd cg er ms sb u op [id|]]; reflexivity.
  - injection Hstep as <-. apply sc_same.
    js. destruct (JSON_parse (Buffer_toString message)); reflexivity.
  - destruct (bool_decide (id ∈ armed w)); [|discriminate Hstep].
    injection Hstep as <-. apply sc_same, on_timeout_subscriptions.
  - simpl in Hstep. destruct (callbacks w !! i) as [cb|] eqn:Hcb;
      [|discriminate Hstep].
    injection Hstep as <-.
    destruct cb as [t|t|t p], e as [e|];
      solve [ now apply sc_same
            | now apply (sc_added _ _ _ i t)
            | now apply (sc_deleted _ _ _ i t) ].
Qed.

Lemma run_invariant (P : Config -> Prop) :
  (forall e c c', step e c = Some c' -> P c -> P c') ->
  forall events c c', run events c = Some c' -> P c -> P c'.
Proof.
  intros Hstep events; induction events as [|e events IH]; simpl; intros c c' Hrun Hc.
  - now injection Hrun as <-.
  - destruct (step e c) as [c1|] eqn:E; [|discriminate]. eauto.
Qed.

Lemma reachable_NoDup (c : Config) :
  reachable c -> NoDup (subscriptions (fst c)).
Proof.
  intros (url & opts & events & Hrun).
  refine (run_invariant (fun c => NoDup (subscriptions (fst c))) _ _ _ _ Hrun _).
  - intros e c0 c1 Hstep Hnd.
    destruct (step_subscriptions e c0 c1 Hstep) as [-> | _ -> | i t _ _ -> | i t _ _ ->].
    + exact Hnd.
    + apply NoDup_nil_2.
    + now apply NoDup_Set_add.
    + now apply NoDup_Set_delete.
  - apply NoDup_nil_2.
Qed.

(** C6. subscribe: (1) not connected, it is ignored with a warning;
    (2) connected, it leaves the subscription set as it is and asks the
    client to subscribe exactly for the given topics that are not in the
    set, with QoS 0 unless the caller says otherwise; (3) a topic enters
    the set only through the successful acknowledgment of such a
    request; (4) that acknowledgment puts the topic in the set; (5) a
    failed acknowledgment changes nothing; (6) the set never holds a
    topic twice, whatever the order of requests and acknowledgments. *)
Theorem subscribe_adds_on_acknowledgment :
  (forall (s : State) (w : World) topic options,
      not_connected s ->
      exec (subscribe topic options) (s, w) =
        (s, extend [console_warn [text "MQTT client not connected"]] [] w)) /\
  (forall (s : State) (w : World) h topic options,
      connected_with h s ->
      exists asked,
        exec (subscribe topic options) (s, w) =
          (s, extend
                (map (fun t => client_subscribe h t (options ∪ {["qos" := VNum 0]}))
                   asked)
                (map subscribe_cb asked) w) /\
        (forall t, In t asked <-> In t (topics_of topic) /\ t ∉ subscriptions s) /\
        (options !! "qos" = None ->
         (options ∪ {["qos" := VNum 0]}) !! "qos" = Some (VNum 0))) /\
  (forall (e : Event Buffer) (c c' : Config) t,
      step e c = Some c' ->
      t ∈ subscriptions (fst c') -> t ∉ subscriptions (fst c) ->
      exists i, e = Completed i None /\
                callbacks (snd c) !! i = Some (subscribe_cb t)) /\
  (forall (s : State) (w : World) i t,
      callbacks w !! i = Some (subscribe_cb t) ->
      exists w',
        step (Completed i None) (s, w) =
          Some (set_subscriptions (Set_add t (subscriptions s)) s, w') /\
        t ∈ Set_add t (subscriptions s)) /\
  (forall (s : State) (w : World) i t e,
      callbacks w !! i = Some (subscribe_cb t) ->
      exists w', step (Completed i (Some e)) (s, w) = Some (s, w')) /\
  (forall c : Config, reachable c -> NoDup (subscriptions (fst c))).
Proof.
  repeat apply conj.
  - intros; now apply subscribe_not_connected.
  - intros s w h topic options Hc.
    eexists. split; [now apply subscribe_connected|]. split.
    + intros t. rewrite filter_In, negb_true_iff, Set_has_false. tauto.
    + intros Hq. rewrite lookup_union_r by exact Hq.
      apply lookup_singleton_eq.
  - intros e c c' t Hstep Hin Hnot.
    destruct (step_subscriptions e c c' Hstep) as [E | _ E | i t' He Hcb E | i t' _ _ E];
      rewrite E in Hin.
    + contradiction.
    + now apply not_elem_of_nil in Hin.
    + apply elem_of_Set_add in Hin as [-> | Hin]; [eauto | contradiction].
    + apply elem_of_Set_delete in Hin as [_ Hin]. contradiction.
  - intros s w i t Hcb. simpl. rewrite Hcb. eexists. split.
    + destruct s; js_run; reflexivity.
    + apply elem_of_Set_add; auto.
  - intros s w i t e Hcb. simpl. rewrite Hcb. eexists.
    destruct s; js_run; reflexivity.
  - apply reachable_NoDup.
Qed.

(** C7. unsubscribe: (1) not connected, it is ignored: nothing changes
    and nothing is asked; (2) connected, it leaves the subscription set
    as it is and asks the client to unsubscribe exactly for the given
    topics that are in the set; (3) the successful acknowledgment removes
    the topic from the set, and only that topic; (4) after a failed
    acknowledgment the set is as before, so the topic remains. *)
Theorem unsubscribe_removes_on_acknowledgment :
  (forall (s : State) (w : World) topic,
      not_connected s -> exec (unsubscribe topic) (s, w) = (s, w)) /\
  (forall (s : State) (w : World) h topic,
      connected_with h s ->
      exists asked,
        exec (unsubscribe topic) (s, w) =
          (s, extend (map (fun t => client_unsubscribe h t true) asked)
                (map unsubscribe_cb asked) w) /\
        (forall t, In t asked <-> In t (topics_of topic) /\ t ∈ subscriptions s)) /\
  (forall (s : State) (w : World) i t,
      callbacks w !! i = Some (unsubscribe_cb t) ->
      exists w',
        step (Completed i None) (s, w) =
          Some (set_subscriptions (Set_delete t (subscriptions s)) s, w') /\
        (t ∉ Set_delete t (subscriptions s)) /\
        (forall x, x ≠ t ->
           (x ∈ Set_delete t (subscriptions s) <-> x ∈ subscriptions s))) /\
  (forall (s : State) (w : World) i t e,
      callbacks w !! i = Some (unsubscribe_cb t) ->
      exists w', step (Completed i (Some e)) (s, w) = Some (s, w')).
Proof.
  repeat apply conj.
  - intros; now apply unsubscribe_not_connected.
  - intros s w h topic Hc.
    eexists. split; [now apply unsubscribe_connected|].
    intros t. rewrite filter_In, Set_has_true. tauto.
  - intros s w i t Hcb. simpl. rewrite Hcb. eexists. split; [|split].
    + destruct s; js_run; reflexivity.
    + rewrite elem_of_Set_delete. tauto.
    + intros x Hx. rewrite elem_of_Set_delete. tauto.
  - intros s w i t e Hcb. simpl. rewrite Hcb. eexists.
    destruct s; js_run; reflexivity.
Qed.

(** C4. publish on a connected session, for any values with their
    typeof, JSON.stringify and String: for a message of object type what
    JSON.stringify returns for it is sent, and when JSON.stringify throws
    nothing is called; the object with property a equal to 1 is sent as
    the seven characters of its JSON text; a string message is sent
    unchanged; the options sent are the caller's over the defaults QoS 0
    and retain false.  Not connected, publish is ignored with a
    warning. *)
Theorem publish_sends_serialized :
  forall (Any : Type) (B : Conversions Any),
  (forall (s : State) (w : World) h topic (x : Any) options json,
      connected_with h s -> typeof_any B x = "object" ->
      JSON_stringify_any B x = inr json ->
      exec (publish B topic (other_message x) options) (s, w) =
        (s, extend
              [client_publish h topic json
                 (options ∪ <["qos" := VNum 0]> (<["retain" := VBool false]> ∅))]
              [publish_cb topic json] w)) /\
  (forall (s : State) (w : World) h topic (x : Any) options e,
      connected_with h s -> typeof_any B x = "object" ->
      JSON_stringify_any B x = inl e ->
      exec (publish B topic (other_message x) options) (s, w) = (s, w)) /\
  (forall (s : State) (w : World) h topic options,
      connected_with h s ->
      exec (publish plain_data topic (other_message (VObj [("a", VNum 1)]))
              options) (s, w) =
        (s, extend
              [client_publish h topic
                 (VStr ("{" ++ dquote ++ "a" ++ dquote ++ ":1}"))
                 (options ∪ <["qos" := VNum 0]> (<["retain" := VBool false]> ∅))]
              [publish_cb topic
                 (VStr ("{" ++ dquote ++ "a" ++ dquote ++ ":1}"))] w)) /\
  (forall (s : State) (w : World) h topic str options,
      connected_with h s ->
      exec (publish B topic (string_message str) options) (s, w) =
        (s, extend
              [client_publish h topic (VStr str)
                 (options ∪ <["qos" := VNum 0]> (<["retain" := VBool false]> ∅))]
              [publish_cb topic (VStr str)] w) /\
      exec (publish plain_data topic (other_message (VStr str)) options) (s, w) =
        (s, extend
              [client_publish h topic (VStr str)
                 (options ∪ <["qos" := VNum 0]> (<["retain" := VBool false]> ∅))]
              [publish_cb topic (VStr str)] w)) /\
  (forall (s : State) (w : World) topic (message : MessageArg Any) options,
      not_connected s ->
      exec (publish B topic message options) (s, w) =
        (s, extend [console_warn [text "MQTT client not connected"]] [] w)) /\
  (forall (options : Object) k,
      (options ∪ <["qos" := VNum 0]> (<["retain" := VBool false]> ∅)) !! k =
        match options !! k with
        | Some v => Some v
        | None =>
            if String.eqb k "qos" then Some (VNum 0)
            else if String.eqb k "retain" then Some (VBool false)
            else None
        end).
Proof.
  intros Any B. repeat apply conj.
  - intros s w h topic x options json Hc Ht Hj.
    apply publish_connected; [exact Hc|].
    unfold payload_of. simpl. now rewrite Ht.
  - intros s w h topic x options e Hc Ht Hj.
    apply (publish_throws B s w h _ _ _ e); [exact Hc|].
    unfold payload_of. simpl. now rewrite Ht.
  - intros s w h topic options Hc.
    apply publish_connected; [exact Hc|]. reflexivity.
  - intros s w h topic str options Hc.
    split; apply publish_connected; try exact Hc; reflexivity.
  - intros; now apply publish_not_connected.
  - intros options k. rewrite lookup_union.
    destruct (options !! k) as [v|]; simpl.
    + now destruct (_ !! k).
    + destruct (String.eqb_spec k "qos") as [-> | Hq]; [reflexivity|].
      rewrite lookup_insert_ne by congruence.
      destruct (String.eqb_spec k "retain") as [-> | Hr]; [reflexivity|].
      rewrite lookup_insert_ne by congruence. reflexivity.
Qed.

(** C9. On a connected session, for any values with their typeof and
    String: a message that is neither a string nor of object type is sent
    as what String returns for it.  For plain data (a number, a boolean,
    undefined) that is String(message): the number 42 is sent as the two
    characters 42, and ten to the power 21 in exponent form. *)
Theorem publish_sends_String_of_scalars :
  forall (Any : Type) (B : Conversions Any),
  (forall (s : State) (w : World) h topic (x : Any) options str,
      connected_with h s ->
      typeof_any B x <> "object" -> typeof_any B x <> "string" ->
      String_any B x = inr str ->
      exec (publish B topic (other_message x) options) (s, w) =
        (s, extend
              [client_publish h topic (VStr str)
                 (options ∪ <["qos" := VNum 0]> (<["retain" := VBool false]> ∅))]
              [publish_cb topic (VStr str)] w)) /\
  (forall (s : State) (w : World) h topic (message : value) options,
      connected_with h s ->
      typeof message <> "object" -> typeof message <> "string" ->
      exec (publish plain_data topic (other_message message) options) (s, w) =
        (s, extend
              [client_publish h topic (VStr (String_ message))
                 (options ∪ <["qos" := VNum 0]> (<["retain" := VBool false]> ∅))]
              [publish_cb topic (VStr (String_ message))] w)) /\
  String_ (VNum 42) = "42" /\
  String_ (VNum (10 ^ 21)) = "1e+21" /\
  String_ (VBool true) = "true".
Proof.
  intros Any B. repeat apply conj.
  - intros s w h topic x options str Hc Ho Hs Hx.
    apply publish_connected; [exact Hc|].
    unfold payload_of. simpl.
    destruct (String.eqb_spec (typeof_any B x) "object") as [E|_];
      [contradiction|].
    now rewrite Hx.
  - intros s w h topic message options Hc Ho Hs.
    apply publish_connected; [exact Hc|].
    rewrite payload_of_plain_data.
    destruct (String.eqb_spec (typeof message) "object") as [E|_];
      [contradiction|reflexivity].
  - reflexivity.
  - vm_compute. reflexivity.
  - reflexivity.
Qed.

(** C5. An inbound message on a client of the session: the payload is
    decoded as text and given to JSON.parse.  If it parses, the record
    with the topic, data the parsed value, raw the payload text and the
    timestamp goes to the front of the message log; if it does not, the
    record at the front has the payload text as data and as raw.  Nothing
    else changes. *)
Theorem inbound_message_is_logged :
  forall (s : State) (w : World) h topic message now,
    created h w = true ->
    let payload := Buffer_toString message in
    (forall parsed,
        JSON_parse payload = Some parsed ->
        step (ClientMessage h topic message now) (s, w) =
          Some (set_messages
                  ({| topic := topic; data := parsed; raw := payload;
                      timestamp := now |} :: messages s) s, w)) /\
    (JSON_parse payload = None ->
        step (ClientMessage h topic message now) (s, w) =
          Some (set_messages
                  ({| topic := topic; data := VStr payload; raw := payload;
                      timestamp := now |} :: messages s) s, w)).
Proof.
  intros s w h topic message now Hh payload; subst payload.
  split; [intros parsed Hp | intros Hp]; simpl; rewrite Hh; js; now rewrite Hp.
Qed.

(** *** connect *)

Lemma defaultOptions_lookup rnd (stored : Object) k :
  defaultOptions rnd stored !! k =
    match stored !! k with
    | Some v => Some v
    | None =>
        if String.eqb k "clientId" then Some (VStr ("vue-mqtt-" ++ rnd))
        else if String.eqb k "clean" then Some (VBool true)
        else if String.eqb k "reconnectPeriod" then Some (VNum 1000)
        else if String.eqb k "connectTimeout" then Some (VNum 10000)
        else None
    end.
Proof.
  unfold defaultOptions. rewrite lookup_union.
  destruct (stored !! k) as [v|]; simpl.
  - now destruct (_ !! k).
  - destruct (String.eqb_spec k "clientId") as [-> | H1]; [reflexivity|].
    rewrite lookup_insert_ne by congruence.
    destruct (String.eqb_spec k "clean") as [-> | H2]; [reflexivity|].
    rewrite lookup_insert_ne by congruence.
    destruct (String.eqb_spec k "reconnectPeriod") as [-> | H3]; [reflexivity|].
    rewrite lookup_insert_ne by congruence.
    destruct (String.eqb_spec k "connectTimeout") as [-> | H4]; [reflexivity|].
    rewrite lookup_insert_ne by congruence. reflexivity.
Qed.

Lemma connect_idle (s : State) (w : World) url opts rnd thrown :
  isConnecting s = false -> isConnected s = false ->
  let c' := exec (connect url opts rnd thrown) (s, w) in
  let broker := default (currentBrokerUrl s) (supplied url) in
  let stored :=
    match opts with
    | Some o => o ∪ currentClientOptions s
    | None => currentClientOptions s
    end in
  currentBrokerUrl (fst c') = broker /\
  currentClientOptions (fst c') = stored /\
  calls (snd c') =
    (calls w
     ++ match connectionTimeout s with
        | Some id => [clearTimeout id]
        | None => []
        end
     ++ [setTimeout (timers w) 15000;
         mqtt_connect broker (defaultOptions rnd stored)]
     ++ match thrown with
        | Some e => [console_error [text "Failed to create MQTT client:"; err e]]
        | None => map (client_on (clients w))
                    ["connect"; "error"; "close"; "reconnect"; "offline";
                     "message"]
        end)%list.
Proof.
  intros Hg Hd.
  destruct s as [cl cd cg er ms sb u op tm]; simpl in Hg, Hd; subst.
  destruct url as [[|a u']|], opts as [o|], tm as [id|], thrown as [e|];
    js_run; simpl; rewrite <- ?app_assoc; auto.
Qed.

(** C8. connect on a session that is neither connecting nor connected:
    a supplied url replaces the stored one and supplied options are
    merged over the stored ones, option by option; the options given to
    mqtt.connect are the stored ones after that merge, and every option
    they leave unset takes its default: the generated client id, clean
    session true, reconnect period 1000 ms, connect timeout 10000 ms.  An
    option the caller has set overrides its default. *)
Theorem connect_merges_and_fills_defaults :
  forall (s : State) (w : World) url opts rnd thrown,
    isConnecting s = false -> isConnected s = false ->
    let c' := exec (connect url opts rnd thrown) (s, w) in
    let broker := default (currentBrokerUrl s) (supplied url) in
    currentBrokerUrl (fst c') = broker /\
    (forall k,
        currentClientOptions (fst c') !! k =
          match opts with
          | Some o =>
              match o !! k with
              | Some v => Some v
              | None => currentClientOptions s !! k
              end
          | None => currentClientOptions s !! k
          end) /\
    exists options earlier later,
      calls (snd c') =
        (calls w ++ earlier ++ mqtt_connect broker options :: later)%list /\
      forall k,
        options !! k =
          match currentClientOptions (fst c') !! k with
          | Some v => Some v
          | None =>
              if String.eqb k "clientId" then Some (VStr ("vue-mqtt-" ++ rnd))
              else if String.eqb k "clean" then Some (VBool true)
              else if String.eqb k "reconnectPeriod" then Some (VNum 1000)
              else if String.eqb k "connectTimeout" then Some (VNum 10000)
              else None
          end.
Proof.
  intros s w url opts rnd thrown Hg Hd c' broker.
  destruct (connect_idle s w url opts rnd thrown Hg Hd) as (Hu & Ho & Hk).
  fold c' in Hu, Ho, Hk. repeat split.
  - exact Hu.
  - intros k. rewrite Ho. destruct opts as [o|]; [|reflexivity].
    rewrite lookup_union. destruct (o !! k), (currentClientOptions s !! k); reflexivity.
  - exists (defaultOptions rnd (currentClientOptions (fst c'))),
      (match connectionTimeout s with
       | Some id => [clearTimeout id]
       | None => []
       end ++ [setTimeout (timers w) 15000])%list,
      (match thrown with
       | Some e => [console_error [text "Failed to create MQTT client:"; err e]]
       | None => map (client_on (clients w))
                   ["connect"; "error"; "close"; "reconnect"; "offline";
                    "message"]
       end).
    split.
    + rewrite Hk, Ho. now rewrite <- !app_assoc.
    + intros k. apply defaultOptions_lookup.
Qed.

End Properties.

(** ** The properties on the example sessions *)

Lemma run_reachable (events : list (Event string)) (c : Config) :
  run (@id string) parse events fresh = Some c ->
  reachable (@id string) parse c.
Proof. intros H. exists None, None, events. exact H. Qed.

(** C1, as stated, fails: after a subscribe acknowledged late the session
    holds no client but one subscription, and disconnect() leaves it
    there. *)
Lemma disconnect_keeps_late_subscription :
  exists c : Config,
    reachable (@id string) parse c /\
    subscriptions (fst (exec disconnect c)) = ["gps/location"] /\
    ~ torn_down (fst (exec disconnect c)).
Proof.
  exists late_ack_session. split; [|split].
  - apply (run_reachable late_ack). vm_compute. reflexivity.
  - vm_compute. reflexivity.
  - intros (Hs & _). vm_compute in Hs. discriminate Hs.
Qed.

(** The same on a second path: no client is held after a timeout either,
    and disconnect() leaves the log and the subscription of the session
    before it. *)
Example disconnect_keeps_log_after_timeout :
  run (@id string) parse timed_out fresh = Some timed_out_session /\
  client (fst timed_out_session) = None /\
  subscriptions (fst (exec disconnect timed_out_session)) = ["gps/location"] /\
  length (messages (fst (exec disconnect timed_out_session))) = 1%nat.
Proof. repeat split; vm_compute; reflexivity. Qed.

(** The scenario of the specification: connect, connect acknowledgment,
    subscribe, acknowledgment, one inbound message; the log holds one
    record with the topic and the parsed data. *)
Example busy_session_log :
  run (@id string) parse busy fresh = Some busy_session /\
  messages (fst busy_session) =
    [{| topic := "gps/location";
        data := VObj [("lat", VNum 1); ("lon", VNum 2)];
        raw := "{" ++ dquote ++ "lat" ++ dquote ++ ":1," ++ dquote ++ "lon"
                 ++ dquote ++ ":2}";
        timestamp := "2025-01-01T00:00:00.000Z" |}].
Proof. split; vm_compute; reflexivity. Qed.

(** C1, amended, on that session: disconnect() empties the log and the
    subscription set. *)
Lemma disconnect_tears_down_busy_session :
  client (fst busy_session) = Some 0%nat /\
  subscriptions (fst busy_session) = ["gps/location"] /\
  length (messages (fst busy_session)) = 1%nat /\
  torn_down (fst (exec disconnect busy_session)).
Proof.
  split; [|split; [|split]]; try (vm_compute; reflexivity).
  apply (proj1 (disconnect_tears_down_held_client
                  (fst busy_session) (snd busy_session)) 0%nat).
  vm_compute. reflexivity.
Defined.

(** C2 on a session with an attempt pending. *)
Lemma connect_during_attempt_is_noop :
  isConnecting (fst attempt_session) = true /\
  connect (Some "ws://other:9001") (Some ∅) "00000000" None attempt_session =
    (tt, attempt_session).
Proof.
  split; [vm_compute; reflexivity|].
  apply (connect_while_busy_is_noop (fst attempt_session) (snd attempt_session)).
  left. vm_compute. reflexivity.
Defined.



(** C10 on the timer a refused connect leaves armed. *)
Lemma timer_after_refused_connect_is_stale :
  isConnecting (fst refused_session) = false /\
  armed (snd refused_session) = [1%positive] /\
  on_timeout refused_session = (tt, refused_session).
Proof.
  split; [vm_compute; reflexivity|]. split; [vm_compute; reflexivity|].
  apply (stale_timeout_changes_nothing (fst refused_session) (snd refused_session)).
  left. vm_compute. reflexivity.
Defined.

(** C4 on a connected session and the object with property a equal to 1. *)
Lemma publish_object_on_online_session :
  connected_with 0%nat (fst online_session) /\
  typeof (VObj [("a", VNum 1)]) = "object" /\
  exec (publish plain_data "gps/data" (other_message (VObj [("a", VNum 1)])) ∅)
       online_session =
    (fst online_session,
     extend
       [client_publish 0%nat "gps/data"
          (VStr ("{" ++ dquote ++ "a" ++ dquote ++ ":1}"))
          (∅ ∪ <["qos" := VNum 0]> (<["retain" := VBool false]> ∅))]
       [publish_cb "gps/data" (VStr ("{" ++ dquote ++ "a" ++ dquote ++ ":1}"))]
       (snd online_session)).
Proof.
  assert (Hc : connected_with 0%nat (fst online_session))
    by (split; vm_compute; reflexivity).
  split; [exact Hc|]. split; [reflexivity|].
  apply (proj1 (publish_sends_serialized value plain_data)
           (fst online_session) (snd online_session) 0%nat "gps/data"
           (VObj [("a", VNum 1)]) ∅
           (VStr ("{" ++ dquote ++ "a" ++ dquote ++ ":1}")) Hc).
  - reflexivity.
  - vm_compute. reflexivity.
Defined.

(** C9 on a connected session and the number 42. *)
Lemma publish_number_on_online_session :
  connected_with 0%nat (fst online_session) /\
  typeof (VNum 42) = "number" /\
  exec (publish plain_data "gps/data" (other_message (VNum 42)) ∅)
       online_session =
    (fst online_session,
     extend
       [client_publish 0%nat "gps/data" (VStr "42")
          (∅ ∪ <["qos" := VNum 0]> (<["retain" := VBool false]> ∅))]
       [publish_cb "gps/data" (VStr "42")] (snd online_session)).
Proof.
  assert (Hc : connected_with 0%nat (fst online_session))
    by (split; vm_compute; reflexivity).
  split; [exact Hc|]. split; [reflexivity|].
  apply (proj1 (publish_sends_String_of_scalars value plain_data)
           (fst online_session) (snd online_session) 0%nat "gps/data"
           (VNum 42) ∅ "42" Hc).
  - discriminate.
  - discriminate.
  - vm_compute. reflexivity.
Defined.

(** [String(n)] on integers: decimal digits up to 21 of them, the
    exponent form beyond, the nearest double where the integer is none. *)
Example Number_toString_examples :
  Number_toString 0 = "0" /\
  Number_toString (-17) = "-17" /\
  Number_toString 9007199254740991 = "9007199254740991" /\
  Number_toString 9007199254740993 = "9007199254740992" /\
  Number_toString (10 ^ 20) = "100000000000000000000" /\
  Number_toString 123456789012345678901 = "123456789012345680000" /\
  Number_toString (- 10 ^ 21) = "-1e+21" /\
  Number_toString (2 ^ 70) = "1.1805916207174113e+21" /\
  Number_toString (2 ^ 1024 - 2 ^ 970 - 1) = "1.7976931348623157e+308" /\
  Number_toString (2 ^ 1024 - 2 ^ 970) = "Infinity" /\
  JSON_stringify (VArr [VNum (10 ^ 21); VNum (2 ^ 1024); VUndefined]) =
    VStr "[1e+21,null,null]".
Proof. repeat split; vm_compute; reflexivity. Qed.

(** C5 on the two payloads of the specification: an object, and text that
    is no JSON. *)
Lemma inbound_messages_on_online_session :
  (parse ("{" ++ dquote ++ "x" ++ dquote ++ ":1}") = Some (VObj [("x", VNum 1)]) /\
   step (@id string) parse
     (ClientMessage 0 "gps/location" ("{" ++ dquote ++ "x" ++ dquote ++ ":1}") "T1")
     online_session =
     Some (set_messages
             [{| topic := "gps/location"; data := VObj [("x", VNum 1)];
                 raw := "{" ++ dquote ++ "x" ++ dquote ++ ":1}";
                 timestamp := "T1" |}]
             (fst online_session), snd online_session)) /\
  (parse "hello" = None /\
   step (@id string) parse (ClientMessage 0 "gps/location" "hello" "T2")
     online_session =
     Some (set_messages
             [{| topic := "gps/location"; data := VStr "hello"; raw := "hello";
                 timestamp := "T2" |}]
             (fst online_session), snd online_session)).
Proof.
  split; (split; [vm_compute; reflexivity|]).
  - apply (proj1 (inbound_message_is_logged (@id string) parse
                    (fst online_session) (snd online_session) 0%nat
                    "gps/location" ("{" ++ dquote ++ "x" ++ dquote ++ ":1}") "T1"
                    eq_refl)).
    vm_compute. reflexivity.
  - apply (proj2 (inbound_message_is_logged (@id string) parse
                    (fst online_session) (snd online_session) 0%nat
                    "gps/location" "hello" "T2" eq_refl)).
    vm_compute. reflexivity.
Defined.

(** C6 on two subscribe calls for one topic, both acknowledged. *)
Lemma subscribe_twice_adds_once :
  run (@id string) parse twice fresh = Some twice_session /\
  subscriptions (fst twice_session) = ["t"] /\
  NoDup (subscriptions (fst twice_session)).
Proof.
  assert (Hrun : run (@id string) parse twice fresh = Some twice_session)
    by (vm_compute; reflexivity).
  split; [exact Hrun|]. split; [vm_compute; reflexivity|].
  apply (proj2 (proj2 (proj2 (proj2 (proj2
           (subscribe_adds_on_acknowledgment (@id string) parse)))))).
  exact (run_reachable twice twice_session Hrun).
Defined.

(** C7 on the acknowledgment of an unsubscribe for one of two topics. *)
Lemma unsubscribe_acknowledged_on_leaving_session :
  subscriptions (fst leaving_session) = ["a"; "b"] /\
  callbacks (snd leaving_session) !! 0%nat = Some (unsubscribe_cb "a") /\
  exists w',
    step (@id string) parse (Completed 0 None)
      (fst leaving_session, snd leaving_session) =
      Some (set_subscriptions (Set_delete "a" (subscriptions (fst leaving_session)))
              (fst leaving_session), w') /\
    Set_delete "a" (subscriptions (fst leaving_session)) = ["b"].
Proof.
  split; [vm_compute; reflexivity|]. split; [vm_compute; reflexivity|].
  destruct (proj1 (proj2 (proj2
              (unsubscribe_removes_on_acknowledgment (@id string) parse)))
              (fst leaving_session) (snd leaving_session) 0%nat "a" eq_refl)
    as (w' & Hstep & _).
  exists w'. split; [exact Hstep|]. vm_compute. reflexivity.
Defined.

(** C8 on a first connect with a url, a user name and clean session off. *)
Lemma connect_with_credentials_on_fresh_session :
  let opts : Object := <["username" := VStr "pilot"]> (<["clean" := VBool false]> ∅) in
  let c' := exec (connect (Some "ws://broker:9001") (Some opts) "1a2b3c4d" None) fresh in
  currentBrokerUrl (fst c') = "ws://broker:9001" /\
  exists options earlier later,
    calls (snd c') =
      (calls (snd fresh) ++ earlier
         ++ mqtt_connect "ws://broker:9001" options :: later)%list /\
    options !! "username" = Some (VStr "pilot") /\
    options !! "clean" = Some (VBool false) /\
    options !! "clientId" = Some (VStr "vue-mqtt-1a2b3c4d") /\
    options !! "reconnectPeriod" = Some (VNum 1000) /\
    options !! "connectTimeout" = Some (VNum 10000).
Proof.
  intros opts c'.
  destruct (connect_merges_and_fills_defaults
              (useMqtt None None) world0 (Some "ws://broker:9001") (Some opts)
              "1a2b3c4d" None eq_refl eq_refl)
    as (Hu & Hm & options & earlier & later & Hcalls & Hopt).
  split; [exact Hu|].
  exists options, earlier, later. split; [exact Hcalls|].
  repeat split; rewrite Hopt, Hm; vm_compute; reflexivity.
Defined.

(** ** Further properties *)

Section Further.

Context {Buffer : Type}.
Variable Buffer_toString : Buffer -> string.
Variable JSON_parse : string -> option value.

Local Abbreviation step := (step Buffer_toString JSON_parse).
Local Abbreviation run := (run Buffer_toString JSON_parse).
Local Abbreviation reachable := (reachable Buffer_toString JSON_parse).

Lemma filter_ne_singleton (id : positive) :
  filter (fun x => x ≠ id) [id] = [].
Proof. rewrite filter_cons_False by auto. reflexivity. Qed.

(** subscribe, unsubscribe and publish only call the client and hand
    callbacks over. *)
Lemma subscribe_extends (s : State) (w : World) topic options :
  exists ks cbs, exec (subscribe topic options) (s, w) = (s, extend ks cbs w).
Proof.
  destruct (client s) as [h|] eqn:Hc; [destruct (isConnected s) eqn:Hd|].
  - rewrite (subscribe_connected s w h) by (split; assumption). eauto.
  - rewrite subscribe_not_connected by (right; assumption). eauto.
  - rewrite subscribe_not_connected by (left; assumption). eauto.
Qed.

Lemma unsubscribe_extends (s : State) (w : World) topic :
  exists ks cbs, exec (unsubscribe topic) (s, w) = (s, extend ks cbs w).
Proof.
  destruct (client s) as [h|] eqn:Hc; [destruct (isConnected s) eqn:Hd|].
  - rewrite (unsubscribe_connected s w h) by (split; assumption). eauto.
  - rewrite unsubscribe_not_connected by (right; assumption).
    exists [], []. now rewrite extend_nil.
  - rewrite unsubscribe_not_connected by (left; assumption).
    exists [], []. now rewrite extend_nil.
Qed.

Lemma publish_extends {Any} (B : Conversions Any) (s : State) (w : World)
    topic message options :
  exists ks cbs,
    exec (publish B topic message options) (s, w) = (s, extend ks cbs w).
Proof.
  destruct (client s) as [h|] eqn:Hc; [destruct (isConnected s) eqn:Hd|].
  - destruct (payload_of B message) as [e | payload] eqn:Hp.
    + rewrite (publish_throws B s w h _ _ _ e) by (try split; assumption).
      exists [], []. now rewrite extend_nil.
    + rewrite (publish_connected B s w h _ _ _ payload)
        by (try split; assumption).
      eauto.
  - rewrite publish_not_connected by (right; assumption). eauto.
  - rewrite publish_not_connected by (left; assumption). eauto.
Qed.

Ltac timer_cases :=
  match goal with
  | H : one_timer _ |- _ =>
      unfold one_timer in H; simpl in H;
      destruct H as [-> | (id0 & -> & Hid0)];
      [| try discriminate Hid0; try (injection Hid0 as Hid0; subst) ];
      unfold one_timer; simpl; rewrite ?filter_ne_singleton; simpl; eauto
  end.

Lemma step_one_timer (e : Event Buffer) (c c' : Config) :
  step e c = Some c' -> one_timer c -> one_timer c'.
Proof.
  destruct c as [s w]. intros Hstep Hinv.
  destruct e as [url opts rnd thrown | | tp options | tp | tp message options
                | | h | h e | h | h | h | h tp message now | id | i e];
    simpl in Hstep; try (destruct (created h w); [|discriminate Hstep]).
  - injection Hstep as <-.
    destruct s as [cl cd cg er ms sb u op tm], w as [nc nt ar cbs ks].
    destruct cg, cd; try exact Hinv.
    destruct url as [[|a u']|], opts as [o|], tm as [id|], thrown as [e|];
      js_run; timer_cases.
  - injection Hstep as <-.
    destruct s as [cl cd cg er ms sb u op tm], w as [nc nt ar cbs ks].
    destruct cl as [h|], tm as [id|]; js_run; timer_cases.
  - injection Hstep as <-.
    destruct (subscribe_extends s w tp options) as (ks & cbs & ->). exact Hinv.
  - injection Hstep as <-.
    destruct (unsubscribe_extends s w tp) as (ks & cbs & ->). exact Hinv.
  - injection Hstep as <-.
    destruct (publish_extends plain_data s w tp (other_message message) options)
      as (ks & cbs & ->).
    exact Hinv.
  - injection Hstep as <-. destruct s. exact Hinv.
  - injection Hstep as <-.
    destruct s as [cl cd cg er ms sb u op tm], w as [nc nt ar cbs ks].
    destruct tm as [id|]; js_run; timer_cases.
  - injection Hstep as <-.
    destruct s as [cl cd cg er ms sb u op tm], w as [nc nt ar cbs ks].
    destruct tm as [id|]; js_run; timer_cases.
  - injection Hstep as <-.
    destruct s as [cl cd cg er ms sb u op tm], w as [nc nt ar cbs ks].
    destruct tm as [id|]; js_run; timer_cases.
  - injection Hstep as <-.
    destruct s as [cl cd cg er ms sb u op tm], w as [nc nt ar cbs ks].
    js_run; timer_cases.
  - injection Hstep as <-.
    destruct s as [cl cd cg er ms sb u op tm], w as [nc nt ar cbs ks].
    destruct tm as [id|]; js_run; timer_cases.
  - injection Hstep as <-.
    destruct s as [cl cd cg er ms sb u op tm]. js.
    destruct (JSON_parse (Buffer_toString message)); exact Hinv.
  - destruct (bool_decide (id ∈ armed w)) eqn:Hid; [|discriminate Hstep].
    apply bool_decide_eq_true in Hid.
    injection Hstep as <-.
    destruct s as [cl cd cg er ms sb u op tm], w as [nc nt ar cbs ks].
    simpl in Hid. left.
    assert (Ha : filter (fun x => x ≠ id) ar = []).
    { destruct Hinv as [H | (id0 & H & _)]; simpl in H; subst ar.
      - reflexivity.
      - apply list_elem_of_singleton in Hid as ->. apply filter_ne_singleton. }
    destruct cg, cd, cl; js_run; simpl; exact Ha.
  - destruct (callbacks w !! i) as [cb|]; [|discriminate Hstep].
    injection Hstep as <-.
    destruct s as [cl cd cg er ms sb u op tm], w as [nc nt ar cbs ks].
    destruct cb, e; js_run; exact Hinv.
Qed.

Lemma one_timer_invariant (c : Config) : reachable c -> one_timer c.
Proof.
  intros (url & opts & events & Hrun).
  refine (run_invariant Buffer_toString JSON_parse one_timer _ _ _ _ Hrun _).
  - intros e c0 c1. apply step_one_timer.
  - left. reflexivity.
Qed.

(** X1. In every configuration the session can reach at most one timer is
    armed, and an armed timer is the one [connectionTimeout] holds: no
    connect timer is ever left running beside a newer one. *)
Theorem reachable_one_timer :
  forall c : Config, reachable c -> one_timer c.
Proof.
  intros c (url & opts & events & Hrun).
  assert (Hfresh : one_timer (useMqtt url opts, world0)) by (left; reflexivity).
  revert Hrun Hfresh. generalize (useMqtt url opts, world0).
  induction events as [|e events IH]; simpl; intros c0 Hrun Hc0.
  - now injection Hrun as <-.
  - destruct (step e c0) as [c1|] eqn:Hstep; [|discriminate Hrun].
    apply (IH c1 Hrun). exact (step_one_timer e c0 c1 Hstep Hc0).
Qed.

Lemma cancelling_disarms (e : Event Buffer) (c c' : Config) :
  reachable c -> cancels_timer e = true -> step e c = Some c' ->
  armed (snd c') = [] /\ connectionTimeout (fst c') = None.
Proof.
  intros Hreach He Hstep.
  pose proof (one_timer_invariant c Hreach) as Hinv.
  destruct c as [s w].
  destruct s as [cl cd cg er ms sb u op tm], w as [nc nt ar cbs ks].
  unfold one_timer in Hinv; simpl in Hinv.
  destruct e as [url opts rnd thrown | | tp options | tp | tp message options
                | | h | h e | h | h | h | h tp message now | id | i e];
    try discriminate He; simpl in Hstep;
    try (destruct (created h _); [|discriminate Hstep]);
    injection Hstep as <-;
    destruct tm as [id|];
    (destruct Hinv as [-> | (id0 & -> & Hid0)];
     [| try discriminate Hid0; injection Hid0 as -> ]);
    try destruct cl as [h'|];
    js_run; simpl; rewrite ?filter_ne_singleton; auto.
Qed.

(** X2. When the client reports the connect acknowledgment, an error,
    close or offline, or when disconnect() is called, no timer stays
    armed and [connectionTimeout] is null: the timeout handler cannot run
    after any of them. *)
Theorem cancelling_events_disarm :
  forall (e : Event Buffer) (c c' : Config),
    reachable c -> cancels_timer e = true -> step e c = Some c' ->
    armed (snd c') = [] /\
    connectionTimeout (fst c') = None /\
    forall id, step (TimerFired id) c' = None.
Proof.
  intros e c c' Hreach He Hstep.
  destruct (cancelling_disarms e c c' Hreach He Hstep) as [Ha Ht].
  repeat split; auto.
  intros id. destruct c' as [s' w']; simpl in *. now rewrite Ha.
Qed.

(** X4. The success path: connect() on a session neither connecting nor
    connected, followed by the connect acknowledgment of the new client,
    leaves the session connected through that client, not connecting,
    without error, with [connectionTimeout] null and no timer armed. *)
Theorem connect_then_acknowledged :
  forall (s : State) (w : World) url opts rnd,
    reachable (s, w) ->
    isConnecting s = false -> isConnected s = false ->
    exists c',
      run [Connect url opts rnd None; ClientConnect (clients w)] (s, w) = Some c' /\
      connected_with (clients w) (fst c') /\
      isConnecting (fst c') = false /\
      error (fst c') = None /\
      connectionTimeout (fst c') = None /\
      armed (snd c') = [].
Proof.
  intros s w url opts rnd Hreach Hg Hd.
  pose proof (one_timer_invariant _ Hreach) as Hinv.
  destruct s as [cl cd cg er ms sb u op tm], w as [nc nt ar cbs ks];
    simpl in Hg, Hd; subst.
  unfold one_timer in Hinv; simpl in Hinv.
  destruct tm as [id|];
    (destruct Hinv as [-> | (id0 & -> & Hid0)];
     [| try discriminate Hid0; injection Hid0 as -> ]);
    destruct url as [[|a u']|], opts as [o|];
    cbn [run step]; js_run;
    match goal with
    | |- context [created ?h ?w] =>
        replace (created h w) with true by
          (symmetry; apply bool_decide_eq_true_2; simpl; lia)
    end;
    js_run; simpl; rewrite ?filter_ne_singleton; simpl;
    rewrite ?filter_ne_singleton;
    eexists; (split; [reflexivity|]); unfold connected_with; simpl;
    rewrite ?filter_ne_singleton; auto 10.
Qed.

(** X5. disconnect() is idempotent: a second disconnect() changes
    nothing and calls nothing. *)
Theorem disconnect_idempotent :
  forall c : Config, exec disconnect (exec disconnect c) = exec disconnect c.
Proof.
  intros [s w].
  destruct s as [cl cd cg er ms sb u op tm].
  destruct cl as [h|], tm as [id|]; js_run; reflexivity.
Qed.

(** X6. disconnect() on a session that holds a client: it cancels the
    pending timer, asks the client to unsubscribe from every topic of the
    subscription set, in the order of the set and without a completion
    callback, then ends the client; it creates no client or timer and
    hands over no callback. *)
Theorem disconnect_unsubscribes_then_ends :
  forall (s : State) (w : World) h,
    client s = Some h ->
    snd (exec disconnect (s, w)) =
      {| clients := clients w;
         timers := timers w;
         armed := match connectionTimeout s with
                  | Some id => filter (fun x => x ≠ id) (armed w)
                  | None => armed w
                  end;
         callbacks := callbacks w;
         calls := calls w
                  ++ match connectionTimeout s with
                     | Some id => [clearTimeout id]
                     | None => []
                     end
                  ++ map (fun t => client_unsubscribe h t false) (subscriptions s)
                  ++ [client_end h] |}.
Proof.
  intros s w h Hc.
  destruct s as [cl cd cg er ms sb u op tm], w as [nc nt ar cbs ks];
    simpl in Hc; subst.
  destruct tm as [id|]; js_run; unfold extend; simpl;
    rewrite ?app_nil_r, <- ?app_assoc; reflexivity.
Qed.

(** *** Event by event *)

Ltac event_cases e s w Hstep :=
  destruct e as [url opts rnd thrown | | tp options | tp | tp message options
                | | h | h err | h | h | h | h tp message now | id | i err];
  simpl in Hstep;
  [ injection Hstep as <-;
    destruct s as [cl cd cg er ms sb u op tm], w as [nc nt ar cbs ks];
    destruct cg, cd;
    [ | | | destruct url as [[|a u']|], opts as [o|], tm as [tid|],
                     thrown as [thr|] ];
    js_run
  | injection Hstep as <-;
    destruct s as [cl cd cg er ms sb u op tm], w as [nc nt ar cbs ks];
    destruct cl as [hc|], tm as [tid|]; js_run
  | injection Hstep as <-;
    destruct (subscribe_extends s w tp options) as (ks' & cbs' & ->)
  | injection Hstep as <-;
    destruct (unsubscribe_extends s w tp) as (ks' & cbs' & ->)
  | injection Hstep as <-;
    destruct (publish_extends plain_data s w tp (other_message message)
                options) as (ks' & cbs' & ->)
  | injection Hstep as <-;
    destruct s as [cl cd cg er ms sb u op tm], w as [nc nt ar cbs ks]; js_run
  | destruct (created h w) eqn:Hcreated; [|discriminate Hstep];
    injection Hstep as <-;
    destruct s as [cl cd cg er ms sb u op tm], w as [nc nt ar cbs ks]; destruct tm as [tid|]; js_run
  | destruct (created h w) eqn:Hcreated; [|discriminate Hstep];
    injection Hstep as <-;
    destruct s as [cl cd cg er ms sb u op tm], w as [nc nt ar cbs ks]; destruct tm as [tid|]; js_run
  | destruct (created h w) eqn:Hcreated; [|discriminate Hstep];
    injection Hstep as <-;
    destruct s as [cl cd cg er ms sb u op tm], w as [nc nt ar cbs ks]; destruct tm as [tid|]; js_run
  | destruct (created h w) eqn:Hcreated; [|discriminate Hstep];
    injection Hstep as <-;
    destruct s as [cl cd cg er ms sb u op tm], w as [nc nt ar cbs ks]; js_run
  | destruct (created h w) eqn:Hcreated; [|discriminate Hstep];
    injection Hstep as <-;
    destruct s as [cl cd cg er ms sb u op tm], w as [nc nt ar cbs ks]; destruct tm as [tid|]; js_run
  | destruct (created h w) eqn:Hcreated; [|discriminate Hstep];
    injection Hstep as <-;
    destruct s as [cl cd cg er ms sb u op tm], w as [nc nt ar cbs ks]; js;
    destruct (JSON_parse (Buffer_toString message)) as [parsed|] eqn:Hparse
  | destruct (bool_decide (id ∈ armed w)) eqn:Harmed; [|discriminate Hstep];
    injection Hstep as <-;
    destruct s as [cl cd cg er ms sb u op tm], w as [nc nt ar cbs ks];
    destruct cg, cd, cl as [hc|]; js_run
  | destruct (callbacks w !! i) as [cb|] eqn:Hcb; [|discriminate Hstep];
    injection Hstep as <-;
    destruct s as [cl cd cg er ms sb u op tm], w as [nc nt ar cbs ks];
    destruct cb as [t|t|t p], err as [err|]; js_run ].

Lemma run_app (l1 l2 : list (Event Buffer)) (c : Config) :
  run (l1 ++ l2) c =
    match run l1 c with
    | Some c1 => run l2 c1
    | None => None
    end.
Proof.
  revert c; induction l1 as [|e l1 IH]; intros c; simpl; [reflexivity|].
  destruct (step e c); [apply IH | reflexivity].
Qed.

(** *** The message log *)

(** X7. A run of inbound messages from clients of the session puts
    their records on the log newest first, above what the log held; one
    record for each message, nothing else changes. *)
Theorem inbound_messages_newest_first :
  forall (l : list (Inbound Buffer)) (s : State) (w : World),
    Forall (fun m => created (sender m) w = true) l ->
    run (map inbound l) (s, w) =
      Some (set_messages
              (rev (map (logged Buffer_toString JSON_parse) l) ++ messages s)%list
              s, w).
Proof.
  induction l as [|m l IH]; intros s w Hall.
  - simpl. now destruct s.
  - apply Forall_cons in Hall as [Hm Hall].
    cbn [map run]. unfold inbound at 1. cbn [step snd]. rewrite Hm.
    replace (exec (on_message Buffer_toString JSON_parse (inbound_topic m)
                     (inbound_payload m) (arrival m)) (s, w))
      with (set_messages (logged Buffer_toString JSON_parse m :: messages s) s, w).
    + rewrite IH by exact Hall. simpl. rewrite <- app_assoc. reflexivity.
    + unfold logged. js.
      destruct (JSON_parse (Buffer_toString (inbound_payload m))); reflexivity.
Qed.

(** X8. The log along any event: it stays as it is, or it is emptied,
    which only disconnect() and the Clear button do, or it gets one
    record at its front, which only an inbound message does. *)
Theorem log_changes_only_by_message_or_clearing :
  forall (e : Event Buffer) (c c' : Config),
    step e c = Some c' ->
    messages (fst c') = messages (fst c) \/
    (messages (fst c') = [] /\ (e = Disconnect \/ e = ClearMessages)) \/
    exists m, e = inbound m /\
      messages (fst c') =
        logged Buffer_toString JSON_parse m :: messages (fst c).
Proof.
  intros e [s w] c' Hstep.
  event_cases e s w Hstep; simpl; auto;
    right; right;
    exists {| sender := h; inbound_topic := tp; inbound_payload := message;
              arrival := now |};
    (split; [reflexivity|]); unfold logged; simpl; now rewrite Hparse.
Qed.

(** *** The stored options *)

Lemma step_options (e : Event Buffer) (c c' : Config) :
  step e c = Some c' ->
  currentClientOptions (fst c') = currentClientOptions (fst c) \/
  exists o url rnd thrown,
    e = Connect url (Some o) rnd thrown /\
    currentClientOptions (fst c') = o ∪ currentClientOptions (fst c).
Proof.
  intros Hstep. destruct c as [s w].
  event_cases e s w Hstep; simpl; eauto 10.
Qed.

(** X9. An option once stored stays stored: along any run, whatever
    connect(), disconnect() and the events do, no key of the stored client
    options is removed (a later connect can only replace its value). *)
Theorem stored_options_are_never_dropped :
  forall (events : list (Event Buffer)) (c c' : Config) k,
    run events c = Some c' ->
    is_Some (currentClientOptions (fst c) !! k) ->
    is_Some (currentClientOptions (fst c') !! k).
Proof.
  intros events c c' k Hrun.
  refine (run_invariant Buffer_toString JSON_parse
            (fun c => is_Some (currentClientOptions (fst c) !! k)) _ _ _ _ Hrun).
  intros e c0 c1 Hstep Hk.
  destruct (step_options e c0 c1 Hstep) as [-> | (o & _ & _ & _ & _ & ->)];
    [exact Hk|].
  apply lookup_union_is_Some. auto.
Qed.

(** *** The error *)

(** X16. An error, once set, is cleared only when connect() starts an
    attempt or when a client reports the connect acknowledgment; no other
    event, and disconnect() in particular, clears it. *)
Theorem error_cleared_only_by_connecting :
  forall (e : Event Buffer) (c c' : Config),
    step e c = Some c' ->
    error (fst c) <> None -> error (fst c') = None ->
    (exists url opts rnd, e = Connect url opts rnd None) \/
    (exists h, e = ClientConnect h).
Proof.
  intros e [s w] c' Hstep.
  event_cases e s w Hstep; simpl; intros Hset Hclear; eauto;
    try contradiction; try discriminate.
Qed.

(** *** The client handle *)

Lemma step_holds_created_client (e : Event Buffer) (c c' : Config) :
  step e c = Some c' -> holds_created_client c -> holds_created_client c'.
Proof.
  destruct c as [s w]. intros Hstep Hinv.
  unfold holds_created_client in *.
  event_cases e s w Hstep;
    simpl in *; intros h0 Hh0; try discriminate Hh0;
    try (injection Hh0 as <-); auto; lia.
Qed.

Lemma reachable_holds_created_client (c : Config) :
  reachable c -> holds_created_client c.
Proof.
  intros (url & opts & events & Hrun).
  refine (run_invariant Buffer_toString JSON_parse holds_created_client
            _ _ _ _ Hrun _).
  - intros e c0 c1. apply step_holds_created_client.
  - intros h Hh. discriminate Hh.
Qed.

(** X15. connect() never ends the client it replaces.  On a session that
    still holds a client (after a close or an offline event, say) and is
    neither connecting nor connected, connect() makes no [end()] call; when
    [mqtt.connect] returns, the handle is the new client, different from
    the old one, which was created earlier and whose events still reach
    the session. *)
Theorem connect_never_ends_replaced_client :
  forall (s : State) (w : World) h url opts rnd thrown,
    reachable (s, w) ->
    isConnecting s = false -> isConnected s = false ->
    client s = Some h ->
    let c' := exec (connect url opts rnd thrown) (s, w) in
    (exists made,
        calls (snd c') = (calls w ++ made)%list /\
        forall h', client_end h' ∉ made) /\
    (thrown = None ->
       client (fst c') = Some (clients w) /\ h ≠ clients w /\
       created h (snd c') = true).
Proof.
  intros s w h url opts rnd thrown Hreach Hg Hd Hc c'.
  pose proof (reachable_holds_created_client _ Hreach h Hc) as Hlt.
  simpl in Hlt.
  destruct (connect_idle s w url opts rnd thrown Hg Hd) as (_ & _ & Hcalls).
  fold c' in Hcalls. split.
  - eexists. split; [exact Hcalls|].
    intros h' Hin.
    rewrite !elem_of_app in Hin.
    destruct Hin as [Hin | [Hin | Hin]].
    + destruct (connectionTimeout s); [|now apply not_elem_of_nil in Hin].
      apply list_elem_of_singleton in Hin. discriminate Hin.
    + apply list_elem_of_In in Hin. simpl in Hin.
      destruct Hin as [Hin | [Hin | []]]; discriminate Hin.
    + destruct thrown.
      * apply list_elem_of_singleton in Hin. discriminate Hin.
      * apply list_elem_of_In in Hin. simpl in Hin.
        repeat (destruct Hin as [Hin | Hin]; [discriminate Hin|]).
        exact Hin.
  - intros ->. subst c'.
    destruct s as [cl cd cg er ms sb u op tm], w as [nc nt ar cbs ks];
      simpl in *; subst.
    destruct url as [[|a u']|], opts as [o|], tm as [tid|]; js_run; simpl;
      (repeat split; [lia|]); apply bool_decide_eq_true_2; simpl; lia.
Qed.

(** *** Subscribing and unsubscribing again *)

Lemma Set_add_new t (l : list string) : t ∉ l -> Set_add t l = (l ++ [t])%list.
Proof.
  intros Hn. unfold Set_add.
  now rewrite (proj2 (Set_has_false t l) Hn).
Qed.

Lemma Set_delete_absent t (l : list string) : t ∉ l -> Set_delete t l = l.
Proof.
  unfold Set_delete. induction l as [|x l IH]; intros Hn; [reflexivity|].
  apply not_elem_of_cons in Hn as [Hx Hl].
  rewrite filter_cons_True by congruence. now rewrite IH.
Qed.

Lemma Set_delete_added t (l : list string) :
  t ∉ l -> Set_delete t (Set_add t l) = l.
Proof.
  intros Hn. rewrite Set_add_new by exact Hn.
  unfold Set_delete. rewrite filter_app.
  fold (Set_delete t l). rewrite Set_delete_absent by exact Hn.
  rewrite filter_cons_False by auto. apply app_nil_r.
Qed.

(** X12. Round trip.  On a connected session, subscribing to a topic
    that is not in the subscription set and, once that is acknowledged,
    unsubscribing from it and having that acknowledged, first puts the
    topic last in the set and then gives back every ref as it was;
    no callback of the two requests stays pending. *)
Theorem subscribe_then_unsubscribe_restores_session :
  forall (s : State) (w : World) h t options,
    connected_with h s -> t ∉ subscriptions s ->
    exists c1 c2,
      run [Subscribe (one t) options; Completed (length (callbacks w)) None]
        (s, w) = Some c1 /\
      subscriptions (fst c1) = (subscriptions s ++ [t])%list /\
      run [Unsubscribe (one t); Completed (length (callbacks w)) None] c1 =
        Some c2 /\
      fst c2 = s /\
      callbacks (snd c2) = callbacks w.
Proof.
  intros s w h t options Hc Hn.
  pose proof (proj2 (Set_has_false _ _) Hn) as Hf.
  set (s1 := set_subscriptions (Set_add t (subscriptions s)) s).
  assert (Hc1 : connected_with h s1) by (destruct Hc; split; assumption).
  assert (Ht1 : Set_has t (subscriptions s1) = true).
  { apply Set_has_true. unfold s1. simpl. rewrite Set_add_new by exact Hn.
    apply elem_of_app. right. apply list_elem_of_singleton. reflexivity. }
  assert (E1 : exists w1,
             run [Subscribe (one t) options; Completed (length (callbacks w)) None]
               (s, w) = Some (s1, w1) /\ callbacks w1 = callbacks w).
  { cbn [run step]. rewrite (subscribe_connected s w h) by exact Hc.
    cbn [topics_of List.filter]. rewrite Hf. cbn [negb map snd fst].
    unfold extend at 1. cbn [callbacks].
    rewrite list_lookup_middle by reflexivity.
    destruct s as [cl cd cg er ms sb u op tm], w as [nc nt ar cbs ks].
    js_run. eexists. split; [reflexivity|].
    simpl. rewrite delete_middle, ?app_nil_r. reflexivity. }
  destruct E1 as (w1 & E1 & Hcb1).
  exists (s1, w1).
  assert (E2 : exists w2,
             run [Unsubscribe (one t); Completed (length (callbacks w)) None]
               (s1, w1) = Some (s, w2) /\ callbacks w2 = callbacks w).
  { cbn [run step]. rewrite (unsubscribe_connected s1 w1 h) by exact Hc1.
    cbn [topics_of List.filter]. rewrite Ht1. cbn [map snd fst].
    unfold extend at 1. cbn [callbacks]. rewrite Hcb1.
    rewrite list_lookup_middle by reflexivity.
    subst s1.
    destruct s as [cl cd cg er ms sb u op tm], w1 as [nc nt ar cbs ks].
    simpl in Hn, Hcb1. subst cbs.
    js_run. rewrite Set_delete_added by exact Hn.
    eexists. split; [reflexivity|].
    simpl. rewrite delete_middle, ?app_nil_r. reflexivity. }
  destruct E2 as (w2 & E2 & Hcb2).
  exists (s, w2). repeat split; auto.
  simpl. now rewrite Set_add_new.
Qed.

(** *** Completions of publish, and reconnects of the library *)

(** X17. The completion of a publish request, failed or not, changes no
    ref: a failed publish is written to the console and nowhere else. *)
Theorem publish_completion_changes_no_ref :
  forall (s : State) (w : World) i t p e,
    callbacks w !! i = Some (publish_cb t p) ->
    exists w',
      step (Completed i e) (s, w) = Some (s, w') /\
      callbacks w' = delete i (callbacks w) /\
      calls w' =
        (calls w ++
         [match e with
          | Some x => console_error [text ("Failed to publish to " ++ t ++ ":"); err x]
          | None => console_log [text ("Published to " ++ t ++ ":"); val p]
          end])%list.
Proof.
  intros s w i t p e Hcb. simpl. rewrite Hcb.
  destruct s as [cl cd cg er ms sb u op tm], w as [nc nt ar cbs ks].
  destruct e as [x|]; js_run; unfold extend; simpl;
    (eexists; split; [reflexivity|]); simpl; rewrite ?app_nil_r;
    split; reflexivity.
Qed.

(** X18. A reconnect of the library is not guarded by the timeout.
    After a close event and a reconnect event the session is connecting
    with no timer armed, so no timeout will end the wait, and meanwhile
    connect() does nothing. *)
Theorem library_reconnect_has_no_timeout :
  forall (c c1 c2 : Config) h h',
    reachable c ->
    step (ClientClose h) c = Some c1 ->
    step (ClientReconnect h') c1 = Some c2 ->
    isConnecting (fst c2) = true /\
    armed (snd c2) = [] /\
    (forall id, step (TimerFired id) c2 = None) /\
    (forall url opts rnd thrown,
        step (Connect url opts rnd thrown) c2 = Some c2).
Proof.
  intros c c1 c2 h h' Hreach H1 H2.
  destruct (cancelling_disarms (ClientClose h) c c1 Hreach eq_refl H1)
    as (Ha & _).
  destruct c1 as [s1 w1]. simpl in H2, Ha.
  destruct (created h' w1); [|discriminate H2].
  injection H2 as <-.
  destruct s1 as [cl cd cg er ms sb u op tm], w1 as [nc nt ar cbs ks].
  simpl in Ha. subst ar. js_run. unfold extend; simpl.
  repeat split; reflexivity.
Qed.

(** *** A connect that the library refuses *)

Lemma step_stays_idle (e : Event Buffer) (c c' : Config) :
  step e c = Some c' ->
  starts_connecting e = false ->
  isConnecting (fst c) = false -> isConnecting (fst c') = false.
Proof.
  destruct c as [s w]. intros Hstep.
  event_cases e s w Hstep; simpl; intros Hq Hidle;
    try discriminate; subst; auto.
Qed.

Lemma run_stays_idle (events : list (Event Buffer)) (c c' : Config) :
  forallb (fun e => negb (starts_connecting e)) events = true ->
  run events c = Some c' ->
  isConnecting (fst c) = false -> isConnecting (fst c') = false.
Proof.
  revert c; induction events as [|e events IH]; simpl; intros c Hq Hrun Hidle.
  - now injection Hrun as <-.
  - apply andb_prop in Hq as [Hq Hqs].
    destruct (step e c) as [c1|] eqn:Hstep; [|discriminate].
    apply negb_true_iff in Hq.
    eauto using step_stays_idle.
Qed.

Lemma timer_of_idle_session (c c' : Config) id :
  isConnecting (fst c) = false ->
  step (TimerFired id) c = Some c' ->
  fst c' = fst c /\ calls (snd c') = calls (snd c).
Proof.
  destruct c as [s w]. simpl. intros Hidle Hstep.
  destruct (bool_decide (id ∈ armed w)); [|discriminate Hstep].
  injection Hstep as <-.
  destruct s as [cl cd cg er ms sb u op tm]; simpl in Hidle; subst.
  js_run. split; reflexivity.
Qed.

(** X3. When [mqtt.connect] throws, connect() leaves the session not
    connecting with the thrown error; the client handle is the one held
    before (no client is created), and the timer just armed stays armed
    and stored.  When that timer then fires, at once or after any events
    among which there is neither a connect() nor a reconnect event, no
    ref changes and nothing is called: the timeout error replaces no
    error.  After a reconnect event of an earlier client, however, the
    timer's handler passes its guard: it sets the timeout error in place
    of the thrown one, and ends and clears the client still held. *)
Theorem refused_connect_keeps_handle_and_timer :
  forall (s : State) (w : World) url opts rnd e,
    isConnecting s = false -> isConnected s = false ->
    let c' := exec (connect url opts rnd (Some e)) (s, w) in
    (error (fst c') = Some e /\
     isConnecting (fst c') = false /\
     isConnected (fst c') = false /\
     client (fst c') = client s /\
     clients (snd c') = clients w /\
     connectionTimeout (fst c') = Some (timers w) /\
     timers w ∈ armed (snd c')) /\
    (exists w'',
        step (TimerFired (timers w)) c' = Some (fst c', w'') /\
        calls w'' = calls (snd c')) /\
    (forall events c1 c2,
        forallb (fun e => negb (starts_connecting e)) events = true ->
        run events c' = Some c1 ->
        step (TimerFired (timers w)) c1 = Some c2 ->
        fst c2 = fst c1 /\ calls (snd c2) = calls (snd c1)) /\
    (forall h,
        created h w = true ->
        exists c1 c2,
          step (ClientReconnect h) c' = Some c1 /\
          step (TimerFired (timers w)) c1 = Some c2 /\
          isConnecting (fst c1) = true /\
          error (fst c1) = Some e /\
          isConnecting (fst c2) = false /\
          isConnected (fst c2) = false /\
          error (fst c2) = Some timeout_error /\
          client (fst c2) = None /\
          calls (snd c2) =
            (calls (snd c1)
               ++ match client s with
                  | Some held => [client_end held]
                  | None => []
                  end
               ++ [console_error [text "Connection timeout"]])%list).
Proof.
  intros s w url opts rnd e Hg Hd c'.
  assert (H : (error (fst c') = Some e /\
               isConnecting (fst c') = false /\
               isConnected (fst c') = false /\
               client (fst c') = client s /\
               clients (snd c') = clients w /\
               connectionTimeout (fst c') = Some (timers w) /\
               timers w ∈ armed (snd c')) /\
              (exists w'',
                  step (TimerFired (timers w)) c' = Some (fst c', w'') /\
                  calls w'' = calls (snd c')) /\
              (forall h,
                  created h w = true ->
                  exists c1 c2,
                    step (ClientReconnect h) c' = Some c1 /\
                    step (TimerFired (timers w)) c1 = Some c2 /\
                    isConnecting (fst c1) = true /\
                    error (fst c1) = Some e /\
                    isConnecting (fst c2) = false /\
                    isConnected (fst c2) = false /\
                    error (fst c2) = Some timeout_error /\
                    client (fst c2) = None /\
                    calls (snd c2) =
                      (calls (snd c1)
                         ++ match client s with
                            | Some held => [client_end held]
                            | None => []
                            end
                         ++ [console_error [text "Connection timeout"]])%list)).
  { subst c'.
    destruct s as [cl cd cg er ms sb u op tm], w as [nc nt ar cbs ks];
      simpl in Hg, Hd; subst.
    assert (Hin : forall l : list positive, nt ∈ (l ++ [nt])%list).
    { intros l. rewrite elem_of_app, list_elem_of_singleton. auto. }
    destruct url as [[|a u']|], opts as [o|], tm as [id|]; js_run; simpl;
      (split; [repeat split; auto|]);
      (split;
       [ rewrite bool_decide_eq_true_2 by apply Hin;
         eexists; split; reflexivity
       | intros h Hcr; unfold created in *; simpl in Hcr; simpl; rewrite Hcr;
         do 2 eexists; split; [reflexivity|];
         js_run; simpl;
         rewrite bool_decide_eq_true_2 by apply Hin;
         split; [reflexivity|];
         destruct cl as [held|]; js_run; simpl;
         unfold extend; simpl; rewrite <- ?app_assoc, ?app_nil_r;
         repeat split; reflexivity ]). }
  destruct H as (H1 & H2 & H4).
  split; [exact H1|]. split; [exact H2|]. split; [|exact H4].
  intros events c1 c2 Hq Hrun Hfire.
  apply (timer_of_idle_session c1 c2 (timers w)); [|exact Hfire].
  refine (run_stays_idle events c' c1 Hq Hrun _). apply H1.
Qed.

End Further.

(** ** The form *)

(** *** [trim] runs to the end *)

Local Arguments String.append : simpl nomatch.

Lemma strip_prefix_length (p s s' : string) :
  strip_prefix p s = Some s' ->
  String.length s = (String.length p + String.length s')%nat.
Proof.
  revert s; induction p as [|a p IH]; intros s H; simpl in H.
  - now injection H as ->.
  - destruct s as [|b s]; [discriminate H|].
    destruct (Ascii.eqb a b); [|discriminate H].
    simpl. now rewrite (IH s H).
Qed.

Lemma strip_one_shorter (seqs : list string) (s s' : string) :
  Forall (fun p => truthy p = true) seqs ->
  strip_one seqs s = Some s' ->
  (String.length s' < String.length s)%nat.
Proof.
  induction 1 as [|p seqs Hp _ IH]; simpl; intros H; [discriminate H|].
  destruct (strip_prefix p s) as [r|] eqn:E; [|auto].
  injection H as ->. apply strip_prefix_length in E.
  destruct p; [discriminate Hp|]. simpl in E. lia.
Qed.

Lemma strip_all_done (seqs : list string) (fuel : nat) (s : string) :
  Forall (fun p => truthy p = true) seqs ->
  (String.length s <= fuel)%nat ->
  strip_one seqs (strip_all seqs fuel s) = None.
Proof.
  intros Hseqs. revert s; induction fuel as [|fuel IH]; intros s Hlen; simpl.
  - destruct (strip_one seqs s) as [s'|] eqn:E; [|reflexivity].
    apply strip_one_shorter in E; [lia | exact Hseqs].
  - destruct (strip_one seqs s) as [s'|] eqn:E; [|exact E].
    apply IH. apply strip_one_shorter in E; [lia | exact Hseqs].
Qed.

Lemma rev_app_length (a b : string) :
  String.length (String.rev_app a b) = (String.length a + String.length b)%nat.
Proof.
  revert b; induction a as [|x a IH]; intros b; simpl; [reflexivity|].
  rewrite IH. simpl. lia.
Qed.

Lemma rev_app_rev_app (a b c : string) :
  String.rev_app (String.rev_app a b) c = String.rev_app b (a ++ c).
Proof.
  revert b c; induction a as [|x a IH]; intros b c; simpl; [reflexivity|].
  now rewrite IH.
Qed.

Lemma append_empty (s : string) : s ++ "" = s.
Proof. induction s as [|x s IH]; simpl; [reflexivity | now rewrite IH]. Qed.

Lemma rev_rev (s : string) : String.rev (String.rev s) = s.
Proof. unfold String.rev. rewrite rev_app_rev_app. exact (append_empty s). Qed.

(** The result of [trim] begins with no white space and ends with none:
    the stripping has gone all the way. *)
Lemma trim_is_trimmed (s : string) :
  strip_one (map String.rev white_space) (String.rev (trim s)) = None /\
  strip_one white_space (trimStart s) = None.
Proof.
  split.
  - unfold trim, trimEnd. rewrite rev_rev.
    apply strip_all_done.
    + repeat constructor.
    + unfold String.rev. rewrite rev_app_length. simpl. lia.
  - unfold trimStart. apply strip_all_done.
    + repeat constructor.
    + lia.
Qed.

Lemma truthy_trim (s : string) :
  truthy s && truthy (trim s) = truthy (trim s).
Proof. destruct s; reflexivity. Qed.

(** *** handleConnect *)

Lemma handleConnect_options_lookup (f : Form) :
  handleConnect_options f !! "username" =
    (if truthy (trim (username f)) then Some (VStr (trim (username f))) else None) /\
  handleConnect_options f !! "password" =
    (if truthy (trim (password f)) then Some (VStr (trim (password f))) else None) /\
  handleConnect_options f !! "clientId" =
    (if truthy (trim (clientId f)) then Some (VStr (trim (clientId f))) else None).
Proof.
  unfold handleConnect_options. rewrite !truthy_trim.
  destruct (truthy (trim (username f))), (truthy (trim (password f))),
    (truthy (trim (clientId f))); cbv zeta; repeat split;
    repeat first [ rewrite lookup_insert_eq | rewrite lookup_insert_ne by discriminate
                 | rewrite lookup_empty ]; reflexivity.
Qed.

(** X10. handleConnect on a session neither connecting nor connected
    calls [mqtt.connect] with the url of the form (the stored one when
    the field is empty) and with options in which user name, password and
    client id are the trimmed fields when these are not blank.  A blank
    field does not clear the option: the value stored by an earlier
    connect is sent again, and for the client id, when none is stored, the
    generated one. *)
Theorem handleConnect_sends_trimmed_or_stored :
  forall (f : Form) (s : State) (w : World) rnd thrown,
    isConnecting s = false -> isConnected s = false ->
    exists options earlier later,
      calls (snd (exec (handleConnect f rnd thrown) (s, w))) =
        (calls w ++ earlier
           ++ mqtt_connect
                (if truthy (brokerUrl f) then brokerUrl f else currentBrokerUrl s)
                options :: later)%list /\
      options !! "username" =
        (if truthy (trim (username f)) then Some (VStr (trim (username f)))
         else currentClientOptions s !! "username") /\
      options !! "password" =
        (if truthy (trim (password f)) then Some (VStr (trim (password f)))
         else currentClientOptions s !! "password") /\
      options !! "clientId" =
        (if truthy (trim (clientId f)) then Some (VStr (trim (clientId f)))
         else match currentClientOptions s !! "clientId" with
              | Some v => Some v
              | None => Some (VStr ("vue-mqtt-" ++ rnd))
              end).
Proof.
  intros f s w rnd thrown Hg Hd. unfold handleConnect.
  destruct (connect_idle s w (Some (brokerUrl f)) (Some (handleConnect_options f))
              rnd thrown Hg Hd) as (_ & _ & Hcalls).
  destruct (handleConnect_options_lookup f) as (Hu & Hp & Hi).
  exists (defaultOptions rnd (handleConnect_options f ∪ currentClientOptions s)),
    (match connectionTimeout s with
     | Some id => [clearTimeout id]
     | None => []
     end ++ [setTimeout (timers w) 15000])%list,
    (match thrown with
     | Some e => [console_error [text "Failed to create MQTT client:"; err e]]
     | None => map (client_on (clients w))
                 ["connect"; "error"; "close"; "reconnect"; "offline"; "message"]
     end).
  split; [|repeat split].
  - rewrite Hcalls. rewrite <- !app_assoc.
    destruct (brokerUrl f); reflexivity.
  - rewrite defaultOptions_lookup, lookup_union, Hu.
    destruct (truthy (trim (username f))), (currentClientOptions s !! "username");
      reflexivity.
  - rewrite defaultOptions_lookup, lookup_union, Hp.
    destruct (truthy (trim (password f))), (currentClientOptions s !! "password");
      reflexivity.
  - rewrite defaultOptions_lookup, lookup_union, Hi.
    destruct (truthy (trim (clientId f))), (currentClientOptions s !! "clientId");
      reflexivity.
Qed.

(** *** handlePublish *)

(** X11. handlePublish with a topic and a message in the fields: on a
    connected session the text of the message field is the payload,
    unchanged whether or not it is JSON text, with QoS 0 and retain false;
    the message field is emptied, and it is emptied as well when the
    session is not connected and nothing is sent.  With an empty topic or
    an empty message handlePublish does nothing. *)
Theorem handlePublish_sends_text_and_empties_field :
  forall (f : Form) (s : State) (w : World),
    (forall h,
        truthy (publishTopic f) = true -> truthy (publishMessage f) = true ->
        connected_with h s ->
        handlePublish f (s, w) =
          (set_publishMessage "" f,
           (s, extend
                 [client_publish h (publishTopic f) (VStr (publishMessage f))
                    (∅ ∪ <["qos" := VNum 0]> (<["retain" := VBool false]> ∅))]
                 [publish_cb (publishTopic f) (VStr (publishMessage f))] w))) /\
    (truthy (publishTopic f) = true -> truthy (publishMessage f) = true ->
     not_connected s ->
     handlePublish f (s, w) =
       (set_publishMessage "" f,
        (s, extend [console_warn [text "MQTT client not connected"]] [] w))) /\
    (truthy (publishTopic f) = false \/ truthy (publishMessage f) = false ->
     handlePublish f (s, w) = (f, (s, w))).
Proof.
  intros f s w. unfold handlePublish. repeat split.
  - intros h -> -> Hc. simpl.
    now rewrite (publish_connected plain_data s w h (publishTopic f)
                   (string_message (publishMessage f)) ∅
                   (VStr (publishMessage f)) Hc eq_refl).
  - intros -> -> Hn. simpl. now rewrite publish_not_connected by exact Hn.
  - intros [-> | ->]; [reflexivity | now rewrite andb_false_r].
Qed.

(** *** The url helpers *)

Lemma strip_prefix_app (p s : string) : strip_prefix p (p ++ s) = Some s.
Proof.
  induction p as [|a p IH]; simpl; [reflexivity|].
  now rewrite Ascii.eqb_refl.
Qed.

Lemma strip_prefix_Some (p s s' : string) :
  strip_prefix p s = Some s' -> s = p ++ s'.
Proof.
  revert s; induction p as [|a p IH]; intros s H; simpl in H.
  - now injection H as ->.
  - destruct s as [|b s]; [discriminate H|].
    destruct (Ascii.eqb_spec a b) as [-> | _]; [|discriminate H].
    simpl. now rewrite (IH s H).
Qed.

Lemma span_no_slash_app (s : string) :
  let (h, p) := span_no_slash s in s = h ++ p.
Proof.
  induction s as [|c s IH]; simpl; [reflexivity|].
  destruct (Ascii.eqb c slash); [reflexivity|].
  destruct (span_no_slash s) as [h p]. simpl. now rewrite <- IH.
Qed.

Lemma span_no_slash_host (host path : string) :
  occurs slash host = false ->
  path = "" \/ (exists tail, path = String slash tail) ->
  span_no_slash (host ++ path) = (host, path).
Proof.
  intros Hh Hp. induction host as [|c host IH]; simpl in *.
  - destruct Hp as [-> | (tail & ->)]; reflexivity.
  - apply orb_false_elim in Hh as [Hc Hh].
    rewrite Hc. now rewrite (IH Hh).
Qed.

Lemma fold_Set_add (l acc : list string) :
  NoDup (acc ++ l) ->
  fold_left (fun s x => Set_add x s) l acc = (acc ++ l)%list.
Proof.
  revert acc; induction l as [|x l IH]; intros acc Hnd; simpl.
  - now rewrite app_nil_r.
  - assert (Hx : x ∉ acc).
    { apply NoDup_app in Hnd as (_ & Hd & _). intros Hin.
      apply (Hd x Hin). left. }
    unfold Set_add at 2. unfold Set_has.
    rewrite bool_decide_eq_false_2 by exact Hx.
    rewrite IH; rewrite <- app_assoc; [reflexivity | exact Hnd].
Qed.

Lemma four_distinct (base : string) :
  NoDup [base ++ "/mqtt"; base ++ "/ws"; base ++ "/"; base].
Proof.
  assert (Hne : forall x y : string, x <> y -> base ++ x <> base ++ y).
  { intros x y Hxy E. apply Hxy. revert E. apply (inj (String.app base)). }
  assert (H0 : forall x : string, x <> "" -> base ++ x <> base).
  { intros x Hx E. apply (Hne x ""); [exact Hx|]. now rewrite append_empty. }
  repeat apply NoDup_cons_2; try apply NoDup_nil_2;
    rewrite ?elem_of_cons, ?elem_of_nil.
  - intros [E | [E | [E | []]]];
      [ revert E; apply Hne; discriminate
      | revert E; apply Hne; discriminate
      | revert E; apply H0; discriminate ].
  - intros [E | [E | []]];
      [ revert E; apply Hne; discriminate
      | revert E; apply H0; discriminate ].
  - intros [E | []]. revert E; apply H0; discriminate.
  - tauto.
Qed.

Lemma four_alternatives (base : string) :
  Set_of [base ++ "/mqtt"; base ++ "/ws"; base ++ "/"; base] =
    [base ++ "/mqtt"; base ++ "/ws"; base ++ "/"; base].
Proof. unfold Set_of. apply (fold_Set_add _ []), four_distinct. Qed.

(** X13. tryAlternativeUrls.  For a url made of the scheme ws:// or
    wss://, a host part without slash and not empty, and nothing more or
    a path whose characters after the first slash [.] matches, the result
    is the url without its path followed by /mqtt, by /ws, by / and
    by nothing, in this order; the four are distinct, so removing
    duplicates removes nothing.  For any url the result is the empty list
    or four such alternatives of a prefix of the url. *)
Theorem tryAlternativeUrls_keeps_host_drops_path :
  forall f : Form,
    (forall scheme host path,
        scheme = "ws://" \/ scheme = "wss://" ->
        truthy host = true -> occurs slash host = false ->
        path = "" \/
          (exists tail, path = String slash tail /\ has_line_terminator tail = false) ->
        brokerUrl f = scheme ++ host ++ path ->
        tryAlternativeUrls f =
          [scheme ++ host ++ "/mqtt"; scheme ++ host ++ "/ws";
           scheme ++ host ++ "/"; scheme ++ host]) /\
    (tryAlternativeUrls f = [] \/
     exists base rest,
       brokerUrl f = base ++ rest /\
       tryAlternativeUrls f =
         [base ++ "/mqtt"; base ++ "/ws"; base ++ "/"; base]) /\
    NoDup (tryAlternativeUrls f).
Proof.
  intros f. split; [|split].
  - intros scheme host path Hs Hh Hno Hp Hurl.
    assert (Hspan : span_no_slash (host ++ path) = (host, path)).
    { apply span_no_slash_host; [exact Hno|].
      destruct Hp as [-> | (tail & -> & _)]; eauto. }
    assert (Hm : match_base (brokerUrl f) = Some (scheme ++ host)).
    { rewrite Hurl. unfold match_base.
      destruct Hs as [-> | ->].
      - replace (strip_prefix "wss://" ("ws://" ++ host ++ path)) with (@None string)
          by reflexivity.
        rewrite strip_prefix_app, Hspan, Hh.
        destruct Hp as [-> | (tail & -> & ->)]; reflexivity.
      - rewrite strip_prefix_app, Hspan, Hh.
        destruct Hp as [-> | (tail & -> & ->)]; reflexivity. }
    unfold tryAlternativeUrls. rewrite Hm.
    rewrite four_alternatives.
    assert (Ha : forall x, (scheme ++ host) ++ x = scheme ++ host ++ x).
    { intros x. destruct Hs as [-> | ->]; reflexivity. }
    now rewrite !Ha.
  - unfold tryAlternativeUrls.
    destruct (match_base (brokerUrl f)) as [base|] eqn:Hm; [right | now left].
    rewrite four_alternatives.
    unfold match_base in Hm.
    assert (Hpre : forall scheme,
               match strip_prefix scheme (brokerUrl f) with
               | Some rest =>
                   let (host, path) := span_no_slash rest in
                   if truthy host then
                     match path with
                     | EmptyString => Some (scheme ++ host)
                     | String _ tail =>
                         if has_line_terminator tail then None
                         else Some (scheme ++ host)
                     end
                   else None
               | None => None
               end = Some base ->
               exists rest, brokerUrl f = base ++ rest).
    { intros scheme H.
      destruct (strip_prefix scheme (brokerUrl f)) as [rest|] eqn:E;
        [|discriminate H].
      apply strip_prefix_Some in E.
      pose proof (span_no_slash_app rest) as Hsp.
      destruct (span_no_slash rest) as [host path].
      exists path.
      assert (Hb : base = scheme ++ host).
      { destruct (truthy host); [|discriminate H].
        destruct path as [|c tail]; [now injection H|].
        destruct (has_line_terminator tail); [discriminate H | now injection H]. }
      rewrite E, Hsp, Hb.
      clear. induction scheme as [|a scheme IH]; simpl; [reflexivity|].
      now rewrite IH. }
    match type of Hm with
    | match ?a with Some _ => _ | None => ?b end = _ =>
        destruct a as [b1|] eqn:Ha;
        [ injection Hm as <-; destruct (Hpre _ Ha) as (rest & Hr)
        | destruct (Hpre _ Hm) as (rest & Hr) ]
    end; eauto.
  - unfold tryAlternativeUrls.
    destruct (match_base (brokerUrl f)) as [base|]; [|constructor].
    rewrite four_alternatives. apply four_distinct.
Qed.

Lemma cut_path_first_slash (before rest : string) :
  occurs slash before = false ->
  has_line_terminator rest = false ->
  cut_path (before ++ String slash rest) = before.
Proof.
  intros Hb Hr. induction before as [|c before IH]; simpl in *.
  - now rewrite Hr.
  - apply orb_false_elim in Hb as [Hc Hb].
    rewrite Hc. simpl. now rewrite (IH Hb).
Qed.

(** X14. The buttons Try with /mqtt and Try with /ws cut the url at its
    first slash when no line terminator follows it, and append the path:
    a url [ws://host:port] has its first slash in the scheme, so it
    becomes [ws:/mqtt] or [ws:/ws], and host and port are lost. *)
Theorem try_with_cuts_at_first_slash :
  forall (f : Form) path before rest,
    brokerUrl f = before ++ String slash rest ->
    occurs slash before = false ->
    has_line_terminator rest = false ->
    brokerUrl (try_with path f) = before ++ path.
Proof.
  intros f path before rest Hurl Hb Hr.
  unfold try_with. simpl. rewrite Hurl.
  now rewrite cut_path_first_slash.
Qed.

(** ** The further properties on the example sessions *)

(** X1 on the session with a pending attempt. *)
Lemma waiting_session_has_one_timer :
  run (@id string) parse (attempt ++ meanwhile) fresh = Some waiting_session /\
  armed (snd waiting_session) = [1%positive] /\
  one_timer waiting_session.
Proof.
  assert (Hrun : run (@id string) parse (attempt ++ meanwhile) fresh =
                   Some waiting_session) by (vm_compute; reflexivity).
  split; [exact Hrun|]. split; [vm_compute; reflexivity|].
  exact (reachable_one_timer (@id string) parse waiting_session
           (run_reachable _ _ Hrun)).
Defined.

(** X2 on a transport error during the pending attempt. *)
Lemma error_event_disarms_waiting_session :
  armed (snd waiting_session) = [1%positive] /\
  exists c',
    step (@id string) parse (ClientError 0 (Error "refused")) waiting_session =
      Some c' /\
    armed (snd c') = [] /\
    connectionTimeout (fst c') = None /\
    forall timer, step (@id string) parse (TimerFired timer) c' = None.
Proof.
  split; [vm_compute; reflexivity|].
  assert (Hrun : run (@id string) parse (attempt ++ meanwhile) fresh =
                   Some waiting_session) by (vm_compute; reflexivity).
  eexists. split; [vm_compute; reflexivity|].
  apply (cancelling_events_disarm (@id string) parse
           (ClientError 0 (Error "refused")) waiting_session).
  - exact (run_reachable _ _ Hrun).
  - reflexivity.
  - vm_compute. reflexivity.
Defined.

(** X3 on a session that has lost its connection and still holds client
    0, and a url that [mqtt.connect] refuses. *)
Lemma refused_connect_on_closed_session :
  isConnecting (fst closed_session) = false /\
  isConnected (fst closed_session) = false /\
  client (fst closed_session) = Some 0%nat /\
  created 0%nat (snd closed_session) = true /\
  let c' := exec (connect (Some "broker:9001") None "5e6f7a8b"
                    (Some (Error "Missing protocol"))) closed_session in
  (error (fst c') = Some (Error "Missing protocol") /\
   isConnecting (fst c') = false /\
   isConnected (fst c') = false /\
   client (fst c') = Some 0%nat /\
   clients (snd c') = 1%nat /\
   connectionTimeout (fst c') = Some 2%positive /\
   2%positive ∈ armed (snd c')) /\
  (exists w'',
      step (@id string) parse (TimerFired 2) c' = Some (fst c', w'') /\
      calls w'' = calls (snd c')) /\
  (forall events c1 c2,
      forallb (fun e => negb (starts_connecting e)) events = true ->
      run (@id string) parse events c' = Some c1 ->
      step (@id string) parse (TimerFired 2) c1 = Some c2 ->
      fst c2 = fst c1 /\ calls (snd c2) = calls (snd c1)) /\
  (forall h,
      created h (snd closed_session) = true ->
      exists c1 c2,
        step (@id string) parse (ClientReconnect h) c' = Some c1 /\
        step (@id string) parse (TimerFired 2) c1 = Some c2 /\
        isConnecting (fst c1) = true /\
        error (fst c1) = Some (Error "Missing protocol") /\
        isConnecting (fst c2) = false /\
        isConnected (fst c2) = false /\
        error (fst c2) = Some timeout_error /\
        client (fst c2) = None /\
        calls (snd c2) =
          (calls (snd c1)
             ++ [client_end 0%nat]
             ++ [console_error [text "Connection timeout"]])%list).
Proof.
  split; [reflexivity|]. split; [reflexivity|]. split; [reflexivity|].
  split; [reflexivity|].
  exact (refused_connect_keeps_handle_and_timer (@id string) parse
           (fst closed_session) (snd closed_session)
           (Some "broker:9001") None "5e6f7a8b"
           (Error "Missing protocol") eq_refl eq_refl).
Defined.

(** X4 on a fresh session. *)
Lemma first_connect_acknowledged :
  exists c',
    run (@id string) parse
      [Connect (Some "ws://broker:9001") None "1a2b3c4d" None; ClientConnect 0]
      fresh = Some c' /\
    connected_with 0%nat (fst c') /\
    isConnecting (fst c') = false /\
    error (fst c') = None /\
    connectionTimeout (fst c') = None /\
    armed (snd c') = [].
Proof.
  apply (connect_then_acknowledged (@id string) parse (useMqtt None None) world0
           (Some "ws://broker:9001") None "1a2b3c4d").
  - apply (run_reachable []). reflexivity.
  - reflexivity.
  - reflexivity.
Defined.

(** X6 on the busy session. *)
Lemma disconnect_calls_on_busy_session :
  client (fst busy_session) = Some 0%nat /\
  calls (snd (exec disconnect busy_session)) =
    (calls (snd busy_session)
       ++ [client_unsubscribe 0%nat "gps/location" false; client_end 0%nat])%list /\
  callbacks (snd (exec disconnect busy_session)) = [].
Proof.
  assert (Hc : client (fst busy_session) = Some 0%nat) by reflexivity.
  pose proof (disconnect_unsubscribes_then_ends
                (fst busy_session) (snd busy_session) 0%nat Hc) as H.
  split; [exact Hc|].
  change (fst busy_session, snd busy_session) with busy_session in H.
  rewrite H. split; vm_compute; reflexivity.
Defined.

(** X7 on two messages arriving at the connected session. *)
Lemma two_messages_newest_first :
  let first := {| sender := 0%nat; inbound_topic := "gps/location";
                  inbound_payload := "1"; arrival := "T1" |} in
  let second := {| sender := 0%nat; inbound_topic := "gps/location";
                   inbound_payload := "two"; arrival := "T2" |} in
  exists c',
    run (@id string) parse [inbound first; inbound second] online_session =
      Some c' /\
    messages (fst c') =
      [ {| topic := "gps/location"; data := VStr "two"; raw := "two";
           timestamp := "T2" |};
        {| topic := "gps/location"; data := VNum 1; raw := "1";
           timestamp := "T1" |} ].
Proof.
  intros first second.
  eexists. split.
  - apply (inbound_messages_newest_first (@id string) parse [first; second]
             (fst online_session) (snd online_session)).
    repeat constructor.
  - vm_compute. reflexivity.
Defined.

(** X8 on the Clear button pressed on the busy session. *)
Lemma clearing_the_busy_log :
  length (messages (fst busy_session)) = 1%nat /\
  exists c',
    step (@id string) parse ClearMessages busy_session = Some c' /\
    (messages (fst c') = messages (fst busy_session) \/
     (messages (fst c') = [] /\
      (@ClearMessages string = Disconnect \/ @ClearMessages string = ClearMessages)) \/
     exists m, ClearMessages = inbound m /\
       messages (fst c') = logged (@id string) parse m :: messages (fst busy_session)).
Proof.
  split; [reflexivity|].
  eexists. split; [reflexivity|].
  apply (log_changes_only_by_message_or_clearing (@id string) parse
           ClearMessages busy_session).
  reflexivity.
Defined.

(** X9 on the options of the timed out session, over a disconnect and a
    connect with other options. *)
Lemma reconnect_period_stays_stored :
  currentClientOptions (fst timed_out_session) !! "reconnectPeriod" = Some (VNum 0) /\
  exists c',
    run (@id string) parse
      [Disconnect;
       Connect None (Some (<["username" := VStr "pilot"]> ∅)) "9c8d7e6f" None]
      timed_out_session = Some c' /\
    is_Some (currentClientOptions (fst c') !! "reconnectPeriod").
Proof.
  split; [vm_compute; reflexivity|].
  eexists. split; [vm_compute; reflexivity|].
  eapply (stored_options_are_never_dropped (@id string) parse
            [Disconnect;
             Connect None (Some (<["username" := VStr "pilot"]> ∅)) "9c8d7e6f" None]
            timed_out_session).
  - vm_compute. reflexivity.
  - vm_compute. eauto.
Defined.

(** X10 on the two forms: the user name is sent trimmed; erased from the
    form, it is sent again from the stored options. *)
Lemma credentials_are_trimmed_and_kept :
  (exists options earlier later,
      calls (snd (exec (handleConnect pilot_form "1a2b3c4d" None) fresh)) =
        (calls (snd fresh) ++ earlier
           ++ mqtt_connect "ws://broker:9001" options :: later)%list /\
      options !! "username" = Some (VStr "pilot") /\
      options !! "password" = Some (VStr "secret") /\
      options !! "clientId" = Some (VStr "vue-mqtt-1a2b3c4d")) /\
  (exists options earlier later,
      calls (snd (exec (handleConnect erased_form "5e6f7a8b" None)
                    returning_session)) =
        (calls (snd returning_session) ++ earlier
           ++ mqtt_connect "ws://broker:9001" options :: later)%list /\
      options !! "username" = Some (VStr "pilot") /\
      options !! "password" = Some (VStr "secret")).
Proof.
  split.
  - destruct (handleConnect_sends_trimmed_or_stored pilot_form
                (useMqtt None None) world0 "1a2b3c4d" None eq_refl eq_refl)
      as (options & earlier & later & Hcalls & Hu & Hp & Hi).
    exists options, earlier, later. auto.
  - destruct (handleConnect_sends_trimmed_or_stored erased_form
                (fst returning_session) (snd returning_session)
                "5e6f7a8b" None eq_refl eq_refl)
      as (options & earlier & later & Hcalls & Hu & Hp & Hi).
    exists options, earlier, later. auto.
Defined.

(** X11 on JSON text in the message field, on a connected session and on
    a fresh one. *)
Lemma publishing_json_text_from_the_form :
  handlePublish pilot_form online_session =
    (set_publishMessage "" pilot_form,
     (fst online_session,
      extend
        [client_publish 0%nat "gps/data"
           (VStr ("{" ++ dquote ++ "lat" ++ dquote ++ ":1}"))
           (∅ ∪ <["qos" := VNum 0]> (<["retain" := VBool false]> ∅))]
        [publish_cb "gps/data" (VStr ("{" ++ dquote ++ "lat" ++ dquote ++ ":1}"))]
        (snd online_session))) /\
  handlePublish pilot_form fresh =
    (set_publishMessage "" pilot_form,
     (fst fresh,
      extend [console_warn [text "MQTT client not connected"]] [] (snd fresh))) /\
  handlePublish erased_form online_session = (erased_form, online_session).
Proof.
  split; [|split].
  - apply (proj1 (handlePublish_sends_text_and_empties_field pilot_form
                    (fst online_session) (snd online_session)) 0%nat);
      [reflexivity | reflexivity | split; reflexivity].
  - apply (proj1 (proj2 (handlePublish_sends_text_and_empties_field pilot_form
                           (fst fresh) (snd fresh))));
      [reflexivity | reflexivity | left; reflexivity].
  - apply (proj2 (proj2 (handlePublish_sends_text_and_empties_field erased_form
                           (fst online_session) (snd online_session)))).
    right. reflexivity.
Defined.

(** X12 on the connected session and one topic. *)
Lemma subscribe_and_unsubscribe_on_online_session :
  exists c1 c2,
    run (@id string) parse
      [Subscribe (one "gps/location") ∅; Completed 0 None] online_session =
      Some c1 /\
    subscriptions (fst c1) = ["gps/location"] /\
    run (@id string) parse [Unsubscribe (one "gps/location"); Completed 0 None] c1 =
      Some c2 /\
    fst c2 = fst online_session /\
    callbacks (snd c2) = [].
Proof.
  apply (subscribe_then_unsubscribe_restores_session (@id string) parse
           (fst online_session) (snd online_session) 0%nat "gps/location" ∅).
  - split; reflexivity.
  - apply not_elem_of_nil.
Defined.

(** X13 on the url the form starts with. *)
Lemma alternatives_of_the_initial_url :
  tryAlternativeUrls form0 =
    ["ws://202.51.82.87:9001/mqtt"; "ws://202.51.82.87:9001/ws";
     "ws://202.51.82.87:9001/"; "ws://202.51.82.87:9001"].
Proof.
  apply (proj1 (tryAlternativeUrls_keeps_host_drops_path form0)
           "ws://" "202.51.82.87:9001" "").
  - left. reflexivity.
  - reflexivity.
  - reflexivity.
  - left. reflexivity.
  - reflexivity.
Defined.

(** X14 on the url the form starts with. *)
Lemma try_with_mqtt_on_the_initial_url :
  brokerUrl (try_with "/mqtt" form0) = "ws:/mqtt".
Proof.
  apply (try_with_cuts_at_first_slash form0 "/mqtt" "ws:" "/202.51.82.87:9001");
    reflexivity.
Defined.

(** X15 on the session whose connection was lost: the second connect
    makes client 1 and leaves client 0 open. *)
Lemma connect_on_closed_session_keeps_old_client_open :
  client (fst closed_session) = Some 0%nat /\
  let c' := exec (connect None None "5e6f7a8b" None) closed_session in
  (exists made,
      calls (snd c') = (calls (snd closed_session) ++ made)%list /\
      forall h', client_end h' ∉ made) /\
  client (fst c') = Some 1%nat /\
  created 0%nat (snd c') = true.
Proof.
  assert (Hrun : run (@id string) parse closed fresh = Some closed_session)
    by (vm_compute; reflexivity).
  split; [reflexivity|]. intros c'.
  destruct (connect_never_ends_replaced_client (@id string) parse
              (fst closed_session) (snd closed_session) 0%nat None None
              "5e6f7a8b" None (run_reachable _ _ Hrun) eq_refl eq_refl eq_refl)
    as (Hmade & Hnew).
  destruct (Hnew eq_refl) as (Hc & _ & Hcr).
  split; [exact Hmade|]. split; [exact Hc | exact Hcr].
Defined.

(** X16 on the timeout error: disconnect() keeps it, the next connect()
    clears it. *)
Lemma timeout_error_cleared_by_next_connect :
  error (fst timed_out_session) = Some timeout_error /\
  error (fst (exec disconnect timed_out_session)) = Some timeout_error /\
  exists c',
    step (@id string) parse (Connect None None "9c8d7e6f" None) timed_out_session =
      Some c' /\
    error (fst c') = None /\
    ((exists url opts rnd,
         @Connect string None None "9c8d7e6f" None = Connect url opts rnd None) \/
     (exists h, @Connect string None None "9c8d7e6f" None = ClientConnect h)).
Proof.
  split; [reflexivity|]. split; [vm_compute; reflexivity|].
  eexists. split; [vm_compute; reflexivity|].
  split; [reflexivity|].
  apply (error_cleared_only_by_connecting (@id string) parse
           (Connect None None "9c8d7e6f" None) timed_out_session
           (default fresh (step (@id string) parse
                             (Connect None None "9c8d7e6f" None) timed_out_session))).
  - vm_compute. reflexivity.
  - discriminate.
  - vm_compute. reflexivity.
Defined.

(** X17 on a publish that the broker rejects. *)
Lemma rejected_publish_is_only_logged :
  callbacks (snd publishing_session) !! 0%nat =
    Some (publish_cb "gps/data" (VStr "hello")) /\
  exists w',
    step (@id string) parse (Completed 0 (Some (Error "not authorized")))
      (fst publishing_session, snd publishing_session) =
      Some (fst publishing_session, w') /\
    callbacks w' = [] /\
    calls w' =
      (calls (snd publishing_session) ++
       [console_error [text "Failed to publish to gps/data:";
                       err (Error "not authorized")]])%list.
Proof.
  split; [reflexivity|].
  exact (publish_completion_changes_no_ref (@id string) parse
           (fst publishing_session) (snd publishing_session) 0%nat
           "gps/data" (VStr "hello") (Some (Error "not authorized")) eq_refl).
Defined.

(** X18 on the busy session losing its connection. *)
Lemma reconnecting_busy_session_has_no_timer :
  exists c1 c2,
    step (@id string) parse (ClientClose 0) busy_session = Some c1 /\
    step (@id string) parse (ClientReconnect 0) c1 = Some c2 /\
    isConnecting (fst c2) = true /\
    armed (snd c2) = [] /\
    (forall timer, step (@id string) parse (TimerFired timer) c2 = None) /\
    (forall url opts rnd thrown,
        step (@id string) parse (Connect url opts rnd thrown) c2 = Some c2).
Proof.
  assert (Hrun : run (@id string) parse busy fresh = Some busy_session)
    by (vm_compute; reflexivity).
  eexists _, _. split; [vm_compute; reflexivity|].
  split; [vm_compute; reflexivity|].
  eapply (library_reconnect_has_no_timeout (@id string) parse busy_session _ _
            0%nat 0%nat (run_reachable _ _ Hrun)).
  - vm_compute. reflexivity.
  - vm_compute. reflexivity.
Defined.
